(** * Open Responses agent examples: the Python client code, embedded shallowly

    Sources embedded here:
    - [examples/python/reasoning_visibility.py]: [analyze_reasoning_visibility]
      and the token arithmetic of [demonstrate_reasoning_visibility];
    - [examples/python/multi_provider.py]: the token total of
      [compare_providers];
    - [examples/python/basic_agent.py]: the item loop of [display_response];
    - [templates/python/agent_template.py]: [execute_tool], [create_agent],
      [get_reasoning], [display_response], [run_agent], [main];
    - [examples/python/reasoning_visibility.py]: also [display_reasoning],
      [create_agent_with_reasoning], [demonstrate_reasoning_visibility];
    - [examples/python/multi_provider.py]: also the provider suffix,
      [create_agent], [compare_providers];
    - [examples/python/sub_agent_loop.py]: [create_agent_with_tools],
      [display_execution_trace], [main];
    - [examples/python/basic_agent.py]: also [create_basic_agent], [main].

    Python objects are kept dynamic where the code probes them dynamically:
    an output item is its [type] attribute plus a dictionary of further
    attributes read with [getattr(item, name, default)].  A Python [str] is a
    [string]; one character of the model stands for one code point, so
    [String.length] is Python's [len]. *)

From Stdlib Require Import ZArith Lia Ascii String.
From stdpp Require Import base option list strings gmap pretty.

Open Scope string_scope.

(** ** Python values carried by output items *)

(** The optional fields of an output item hold a [str] or [None]. *)
Inductive pyval : Type :=
  | VNone
  | VStr (s : string).

#[global] Instance pyval_eq_dec : EqDecision pyval.
Proof. solve_decision. Defined.

(** Python truthiness: [None] and the empty string are false. *)
Definition truthy (v : pyval) : bool :=
  match v with
  | VNone => false
  | VStr s => negb (String.eqb s "")
  end.

(** [a or b]: the first operand when it is truthy, else the second. *)
Definition py_or (a b : pyval) : pyval := if truthy a then a else b.

(** [a == b] between a value and a string literal. *)
Definition py_eq_str (v : pyval) (lit : string) : bool :=
  match v with
  | VStr s => String.eqb s lit
  | VNone => false
  end.

(** Exceptions the embedded code can raise. *)
Inductive pyexn : Type :=
  | AttributeError (obj attr : string)
  | TypeError (msg : string)
  | TransportError (status : Z) (msg : string).

(** A computation that returns or raises. *)
Inductive pyresult (A : Type) : Type :=
  | Return (a : A)
  | Raise (e : pyexn).
Arguments Return {A} a.
Arguments Raise {A} e.

Definition py_bind {A B} (m : pyresult A) (k : A -> pyresult B) : pyresult B :=
  match m with
  | Return a => k a
  | Raise e => Raise e
  end.

Notation "'let*' x ':=' m 'in' k" := (py_bind m (fun x => k))
  (at level 10, x name, m at level 100, k at level 200).

(** [len(v)]: defined on strings, a [TypeError] on [None]. *)
Definition py_len (v : pyval) : pyresult Z :=
  match v with
  | VStr s => Return (Z.of_nat (String.length s))
  | VNone => Raise (TypeError "object of type 'NoneType' has no len()")
  end.

(** [str(v)] as an f-string renders it. *)
Definition py_str (v : pyval) : string :=
  match v with
  | VStr s => s
  | VNone => "None"
  end.

(** ** Output items and responses *)

(** An output item: the [type] attribute every item carries, and the other
    attributes, which the code only reads through [getattr] with a default. *)
Record item : Type := Item {
  type_ : pyval;
  attrs : gmap string pyval;
}.

(** [getattr(item, name, default)] *)
Definition getattr (it : item) (name : string) (default : pyval) : pyval :=
  match attrs it !! name with
  | Some v => v
  | None => default
  end.

Record usage : Type := Usage {
  input_tokens : Z;
  output_tokens : Z;
}.

(** A response as the client reads it.  [resp_usage] is [None] when the
    transport reply had no usage block. *)
Record response : Type := Response {
  resp_id : string;
  resp_model : string;
  resp_usage : option usage;
  output : list item;
}.

(** ** reasoning_visibility.py *)

Inductive ReasoningLevel : Type := RAW | SUMMARY | ENCRYPTED | NONE.

#[global] Instance ReasoningLevel_eq_dec : EqDecision ReasoningLevel.
Proof. solve_decision. Defined.

(** The dictionary returned by [analyze_reasoning_visibility]. *)
Record analysis : Type := Analysis {
  level : ReasoningLevel;
  reasoning_items : list item;
  total_reasoning_tokens : Z;
  details : string;
}.

(** [item.type == "reasoning"] *)
Definition is_reasoning (it : item) : bool := py_eq_str (type_ it) "reasoning".

(** [getattr(item, "content", None) and not getattr(item, "encrypted_content", None)] *)
Definition raw_content_test (it : item) : bool :=
  truthy (getattr it "content" VNone)
  && negb (truthy (getattr it "encrypted_content" VNone)).

(** [len(getattr(item, "content", "") or getattr(item, "summary", "") or "") // 4] *)
Definition item_tokens (it : item) : pyresult Z :=
  let* n := py_len (py_or (py_or (getattr it "content" (VStr ""))
                                 (getattr it "summary" (VStr "")))
                          (VStr "")) in
  Return (n `div` 4)%Z.

(** [sum(f(item) for item in items)], left to right, stopping at the first
    exception. *)
Fixpoint py_sum (f : item -> pyresult Z) (items : list item) (acc : Z)
  : pyresult Z :=
  match items with
  | [] => Return acc
  | it :: rest => let* n := f it in py_sum f rest (acc + n)%Z
  end.

Definition analyze_reasoning_visibility (r : response) : pyresult analysis :=
  let reasoning_items := filter (fun it => is_reasoning it = true) (output r) in
  if bool_decide (reasoning_items = []) then
    Return (Analysis NONE [] 0 "No reasoning items found in response.")
  else
    let has_raw_content := existsb raw_content_test reasoning_items in
    let has_encrypted :=
      existsb (fun it => truthy (getattr it "encrypted_content" VNone))
              reasoning_items in
    let has_summary :=
      existsb (fun it => truthy (getattr it "summary" VNone)) reasoning_items in
    let* total_reasoning_tokens := py_sum item_tokens reasoning_items 0 in
    if has_raw_content then
      Return (Analysis RAW reasoning_items total_reasoning_tokens
        "Full raw reasoning traces available. This model provides complete transparency.")
    else if has_summary then
      Return (Analysis SUMMARY reasoning_items total_reasoning_tokens
        "Summarized reasoning available. Raw traces are not exposed.")
    else if has_encrypted then
      Return (Analysis ENCRYPTED reasoning_items 0
        "Reasoning is encrypted and not accessible to the client.")
    else
      Return (Analysis NONE reasoning_items 0 "Unknown reasoning format.").

(** The token total printed by [demonstrate_reasoning_visibility] (lines
    256-260) and by [compare_providers] in multi_provider.py (lines 140-142):
    [response.usage.input_tokens if response.usage else 0], likewise for the
    output side, then the sum. *)
Definition in_tokens (r : response) : Z :=
  match resp_usage r with
  | Some u => input_tokens u
  | None => 0
  end.

Definition out_tokens (r : response) : Z :=
  match resp_usage r with
  | Some u => output_tokens u
  | None => 0
  end.

Definition total_tokens (r : response) : Z := (in_tokens r + out_tokens r)%Z.

(** ** agent_template.py: reasoning of one item *)

Definition get_reasoning (it : item) : ReasoningLevel * pyval :=
  if negb (py_eq_str (type_ it) "reasoning") then (NONE, VStr "")
  else
    let content := getattr it "content" VNone in
    let summary := getattr it "summary" VNone in
    let encrypted_content := getattr it "encrypted_content" VNone in
    if truthy content && negb (truthy encrypted_content) then (RAW, content)
    else if truthy summary then (SUMMARY, summary)
    else if truthy encrypted_content then (ENCRYPTED, VStr "[encrypted]")
    else (NONE, VStr "").

(** ** agent_template.py: tools *)

(** A decoded JSON argument value.  Only scalars are modelled: the declared
    schema of [example_tool] has one string property. *)
Inductive jval : Type :=
  | JNull
  | JBool (b : bool)
  | JInt (z : Z)
  | JStr (s : string).

(** [str(v)] inside an f-string. *)
Definition jval_str (v : jval) : string :=
  match v with
  | JNull => "None"
  | JBool true => "True"
  | JBool false => "False"
  | JInt z => pretty z
  | JStr s => s
  end.

(** What a caller can pass as [arguments]: the decoded dictionary the
    signature asks for, or some other value (for instance the undecoded JSON
    text of the item), on which [.get] does not exist. *)
Inductive pyarg : Type :=
  | ArgDict (d : gmap string jval)
  | ArgOther (v : pyval).

(** [arguments.get(key, default)] *)
Definition arg_get (arguments : pyarg) (key : string) (default : jval)
  : pyresult jval :=
  match arguments with
  | ArgDict d => Return (match d !! key with Some v => v | None => default end)
  | ArgOther (VStr _) => Raise (AttributeError "str" "get")
  | ArgOther VNone => Raise (AttributeError "NoneType" "get")
  end.

Definition execute_tool (name : string) (arguments : pyarg) : pyresult string :=
  if String.eqb name "example_tool" then
    let* v := arg_get arguments "input" (JStr "") in
    Return ("Processed: " ++ jval_str v)
  else
    Return ("Unknown tool: " ++ name).

(** [sub in s] on strings. *)
Fixpoint str_contains (sub s : string) : bool :=
  String.prefix sub s
  || match s with
     | EmptyString => false
     | String _ rest => str_contains sub rest
     end.

(** A function call as the protocol delivers it, with the arguments already
    decoded.  [execute_tool] is the only dispatch entry point of the source
    and takes the name and the arguments; the call id is not among its
    parameters. *)
Record FunctionCall : Type := {
  fc_call_id : string;
  fc_name : string;
  fc_arguments : pyarg;
}.

(** Handing such a call to the source: [execute_tool(call.name, arguments)].
    The source never makes this call itself; it is what "dispatching a
    function call" can mean on this code. *)
Definition dispatch (call : FunctionCall) : pyresult string :=
  execute_tool (fc_name call) (fc_arguments call).

(** ** Console output and the transport *)

Definition nl : string := String (Ascii.ascii_of_nat 10) "".

(** [s * n] *)
Definition str_repeat (s : string) (n : nat) : string :=
  String.concat "" (replicate n s).

(** [s.upper()], on ASCII letters; other characters are left as they are. *)
Definition ascii_upper (c : ascii) : ascii :=
  let n := Ascii.nat_of_ascii c in
  if (97 <=? n)%nat && (n <=? 122)%nat then Ascii.ascii_of_nat (n - 32) else c.

Fixpoint str_upper (s : string) : string :=
  match s with
  | EmptyString => EmptyString
  | String c rest => String (ascii_upper c) (str_upper rest)
  end.

(** [v.upper()]: only strings have the method. *)
Definition py_upper (v : pyval) : pyresult string :=
  match v with
  | VStr s => Return (str_upper s)
  | VNone => Raise (AttributeError "NoneType" "upper")
  end.

(** [v[:n]] *)
Definition py_slice (v : pyval) (n : nat) : pyresult string :=
  match v with
  | VStr s => Return (String.substring 0 n s)
  | VNone => Raise (TypeError "'NoneType' object is not subscriptable")
  end.

(** A tool declaration, flat: [type], [name], [description], [parameters]. *)
Record property : Type := {
  prop_type : string;
  prop_description : string;
}.

Record tool_decl : Type := {
  tool_type : string;
  tool_name : string;
  tool_description : string;
  param_type : string;
  param_properties : list (string * property);
  param_required : list string;
}.

(** The keyword arguments of [client.responses.create]. *)
Record request : Type := {
  req_model : string;
  req_instructions : pyval;
  req_input : string;
  req_reasoning_effort : option string;
  req_tools : option (list tool_decl);
  req_tool_choice : option string;
}.

(** What the code gets from the SDK and cannot see into: the remote model
    behind [client.responses.create], which may answer differently on each
    turn (the turn number is the count of requests sent before), and the
    text [str(item)] of an item. *)
Class SDK : Type := {
  responses_create : nat -> request -> pyresult response;
  item_repr : item -> string;
}.

(** The world a run acts on: the lines printed and the requests sent. *)
Record world : Type := World {
  stdout : list string;
  sent : list request;
}.

Definition io (A : Type) : Type := world -> pyresult A * world.

Definition io_ret {A} (a : A) : io A := fun w => (Return a, w).

Definition io_bind {A B} (m : io A) (k : A -> io B) : io B :=
  fun w =>
    match m w with
    | (Return a, w') => k a w'
    | (Raise e, w') => (Raise e, w')
    end.

Definition io_lift {A} (m : pyresult A) : io A := fun w => (m, w).

Notation "'do' x '<-' m ';' k" := (io_bind m (fun x => k))
  (at level 10, x name, m at level 100, k at level 200).
Notation "'do_' m ';' k" := (io_bind m (fun _ => k))
  (at level 10, m at level 100, k at level 200).

(** [print(line)] *)
Definition print (line : string) : io unit :=
  fun w => (Return tt, World (stdout w ++ [line]) (sent w)).

(** [client.responses.create] *)
Definition create `{sdk : SDK} (req : request) : io response :=
  fun w =>
    (responses_create (length (sent w)) req, World (stdout w) (sent w ++ [req])).

(** [for item in items: body], threading the loop's local state. *)
Fixpoint for_items {S : Type} (body : S -> item -> io S) (items : list item)
  (st : S) : io S :=
  match items with
  | [] => io_ret st
  | it :: rest => do st' <- body st it; for_items body rest st'
  end.

(** Modelled from the spec: the test for a [Message] item of section 3, used
    by [output_text] below. *)
Definition is_message (it : item) : bool := py_eq_str (type_ it) "message".

(** Modelled from the spec: [Message.content] of section 3, a string; by
    section 7 an absent field degrades to the empty default. *)
Definition message_content (it : item) : string :=
  match getattr it "content" VNone with
  | VStr s => s
  | VNone => ""
  end.

(** Modelled from the spec: [response.output_text] is a property of the SDK's
    response object and is not defined in this repository.  Section 3 gives it
    as the concatenation of all [Message.content] values in sequence order,
    with no separator, and the empty string when there is no message. *)
Definition output_text (r : response) : string :=
  String.concat ""
    (map message_content (filter (fun it => is_message it = true) (output r))).

(** [f"Tokens: {in} in / {out} out"], shared by every [display_response]. *)
Definition tokens_line (r : response) : string :=
  "Tokens: " ++ pretty (in_tokens r) ++ " in / " ++ pretty (out_tokens r) ++ " out".

(** [getattr(item, "content", None) or getattr(item, "summary", None) or fallback] *)
Definition reasoning_text (it : item) (fallback : string) : pyval :=
  py_or (py_or (getattr it "content" VNone) (getattr it "summary" VNone))
        (VStr fallback).

(** [f"{text[:n]}{'...' if len(text) > n else ''}"] *)
Definition clipped (text : pyval) (n : nat) : pyresult string :=
  let* head := py_slice text n in
  let* len := py_len text in
  Return (head ++ (if (Z.of_nat n <? len)%Z then "..." else "")).

(** ** basic_agent.py *)

Module basic_agent.
Section with_sdk.
Context `{sdk : SDK}.

(** The body of the [for item in response.output] loop of
    [display_response] (lines 59-71). *)
Definition display_item (_ : unit) (it : item) : io unit :=
  if py_eq_str (type_ it) "reasoning" then
    print ("[REASONING] " ++ py_str (reasoning_text it "[encrypted]"))
  else if py_eq_str (type_ it) "message" then
    print ("[MESSAGE] " ++ py_str (getattr it "content" (VStr "")))
  else
    do kind <- io_lift (py_upper (type_ it));
    print ("[" ++ kind ++ "] " ++ item_repr it).

Definition display_response (r : response) : io unit :=
  do_ print (nl ++ str_repeat "=" 60);
  do_ print ("Response ID: " ++ resp_id r);
  do_ print ("Model: " ++ resp_model r);
  do_ print (tokens_line r);
  do_ print (str_repeat "=" 60 ++ nl);
  do_ print "--- Output Text (convenience helper) ---";
  do_ print (output_text r);
  do_ print (nl ++ "--- All Output Items ---");
  for_items display_item (output r) tt.
End with_sdk.
End basic_agent.

(** ** agent_template.py *)

Module agent_template.

Record config : Type := {
  cfg_api_key : option string;
  cfg_model : string;
  cfg_reasoning_effort : string;
}.

Definition TOOLS : list tool_decl :=
  [ {| tool_type := "function";
       tool_name := "example_tool";
       tool_description := "An example tool - replace with your own";
       param_type := "object";
       param_properties :=
         [("input", {| prop_type := "string";
                       prop_description := "The input to process" |})];
       param_required := ["input"] |} ].

Section with_sdk.
Context `{sdk : SDK} (CONFIG : config).

(** The [request_params] dictionary of [create_agent]; [tools] and
    [tool_choice] are set only under [if tools:], that is for a list that
    is neither [None] nor empty. *)
Definition request_params (task : string) (instructions : pyval)
  (tools : option (list tool_decl)) (reasoning_effort : string) : request :=
  let with_tools :=
    match tools with
    | Some (_ :: _) => true
    | _ => false
    end in
  {| req_model := cfg_model CONFIG;
     req_instructions :=
       py_or instructions
         (VStr "You are a helpful assistant that completes tasks step by step.");
     req_input := task;
     req_reasoning_effort := Some reasoning_effort;
     req_tools := if with_tools then tools else None;
     req_tool_choice := if with_tools then Some "auto" else None |}.

(** [create_agent(task, instructions, tools, reasoning_effort)]: builds the
    request and submits it once. *)
Definition create_agent (task : string) (instructions : pyval)
  (tools : option (list tool_decl)) (reasoning_effort : string) : io response :=
  do response <- create (request_params task instructions tools reasoning_effort);
  io_ret response.

(** The body of the [for item in response.output] loop of
    [display_response] (lines 190-213); the state is [tool_call_count]. *)
Definition display_item (tool_call_count : nat) (it : item) : io nat :=
  do tool_call_count <-
    (if py_eq_str (type_ it) "reasoning" then
       do text <- io_lift (clipped (reasoning_text it "[encrypted]") 200);
       do_ print ("[REASONING] " ++ text);
       io_ret tool_call_count
     else if py_eq_str (type_ it) "function_call" then
       let tool_call_count := S tool_call_count in
       let name := getattr it "name" (VStr "unknown") in
       let args := getattr it "arguments" (VStr "{}") in
       do_ print ("[TOOL CALL #" ++ pretty tool_call_count ++ "] " ++ py_str name);
       do_ print ("  Arguments: " ++ py_str args);
       io_ret tool_call_count
     else if py_eq_str (type_ it) "function_call_output" then
       let output := py_or (getattr it "output" (VStr "")) (VStr "") in
       do text <- io_lift (clipped output 150);
       do_ print ("[TOOL RESULT] " ++ text);
       io_ret tool_call_count
     else if py_eq_str (type_ it) "message" then
       do_ print ("[RESPONSE] " ++ py_str (getattr it "content" (VStr "")));
       io_ret tool_call_count
     else
       do kind <- io_lift (py_upper (type_ it));
       do_ print ("[" ++ kind ++ "] " ++ item_repr it);
       io_ret tool_call_count);
  do_ print "";
  io_ret tool_call_count.

(** The rule is U+2500, written here in its three bytes; it is only printed. *)
Definition display_response (r : response) : io unit :=
  do_ print (nl ++ str_repeat "=" 60);
  do_ print ("Response ID: " ++ resp_id r);
  do_ print ("Model: " ++ resp_model r);
  do_ print (tokens_line r);
  do_ print (str_repeat "=" 60 ++ nl);
  do _ <- for_items display_item (output r) 0%nat;
  do_ print (str_repeat "─" 60);
  do_ print "OUTPUT TEXT (convenience helper):";
  do_ print (str_repeat "─" 60);
  print (output_text r).

(** [run_agent(task, use_tools)]: one call of [create_agent], the display,
    and the response handed back. *)
Definition run_agent (task : string) (use_tools : bool) : io response :=
  do_ print (nl ++ str_repeat "=" 60);
  do_ print "OPEN RESPONSES AGENT";
  do_ print (str_repeat "=" 60);
  do_ print "Endpoint: https://router.huggingface.co/v1/responses";
  do_ print ("Model: " ++ cfg_model CONFIG);
  do_ print ("Tools: " ++ (if use_tools then "Enabled" else "Disabled"));
  do_ print ("Reasoning Effort: " ++ cfg_reasoning_effort CONFIG);
  do_ print (str_repeat "=" 60);
  do_ print (nl ++ "Task: " ++ task ++ nl);
  do_ print ("Processing..." ++ nl);
  let tools := if use_tools then Some TOOLS else None in
  do response <- create_agent task VNone tools (cfg_reasoning_effort CONFIG);
  do_ display_response response;
  io_ret response.
End with_sdk.
End agent_template.

(** ** The specification's side of the comparisons *)

(** A field of an item as the data model of section 3 reads it: absent and
    [None] both count as the empty string. *)
Definition field_text (it : item) (name : string) : string :=
  match attrs it !! name with
  | Some (VStr s) => s
  | _ => ""
  end.

(** Section 4.2, "content or summary": the content, or the summary when the
    content is empty. *)
Definition spec_item_text (it : item) : string :=
  if String.eqb (field_text it "content") "" then field_text it "summary"
  else field_text it "content".

(** Section 4.2: the sum over all reasoning items of
    [floor(len(content or summary) / 4)]. *)
Definition spec_token_estimate (items : list item) : Z :=
  foldr (fun it acc => (Z.of_nat (String.length (spec_item_text it)) `div` 4 + acc)%Z)
        0%Z items.

(** The terminal states that sections 4.5 and 7 give the loop driver. *)
Inductive spec_terminal : Type :=
  | Terminal (r : response)
  | Failed (e : pyexn)
  | LoopLimitExceeded
  | Cancelled.

(** Where a call of [run_agent] ends among them: it returns the response or
    lets the exception through; nothing in the source builds the other two. *)
Definition run_outcome (res : pyresult response) : spec_terminal :=
  match res with
  | Return r => Terminal r
  | Raise e => Failed e
  end.

(** The known item kinds of section 3. *)
Definition known_kinds : list string :=
  ["reasoning"; "message"; "function_call"; "function_call_output"].

(** A run step that returns and sends nothing. *)
Definition quiet {A : Type} (m : io A) : Prop :=
  forall w, exists a out, m w = (Return a, World out (sent w)).

(** Every item carries a string in [type]. *)
Definition typed_items (items : list item) : Prop :=
  Forall (fun it => exists t, type_ it = VStr t) items.

(** A remote model that on every turn answers with a response holding a
    function call and no message. *)
Definition always_calls_tool `{sdk : SDK} : Prop :=
  forall turn req, exists r,
    responses_create turn req = Return r
    /\ typed_items (output r)
    /\ Exists (fun it => type_ it = VStr "function_call") (output r)
    /\ Forall (fun it => type_ it <> VStr "message") (output r).

(** ** Sample inputs *)

Definition mk_item (kind : string) (fields : list (string * pyval)) : item :=
  Item (VStr kind) (list_to_map fields).

Definition raw_item : item :=
  mk_item "reasoning" [("content", VStr "step one, step two")].

Definition summary_item (s : string) : item :=
  mk_item "reasoning" [("summary", VStr s)].

Definition encrypted_item : item :=
  mk_item "reasoning" [("encrypted_content", VStr "gAAAAAB0123456789")].

Definition mixed_response : response :=
  Response "resp_1" "m" None
    [summary_item "first summary"; raw_item; summary_item "second";
     mk_item "message" [("content", VStr "done")]].

Definition encrypted_response : response :=
  Response "resp_2" "m" (Some (Usage 12 34)) [encrypted_item; encrypted_item].

Definition call_c1 : FunctionCall :=
  {| fc_call_id := "c1"; fc_name := "example_tool";
     fc_arguments := ArgDict {[ "input" := JStr "x" ]} |}.

Definition call_c2 : FunctionCall :=
  {| fc_call_id := "c2"; fc_name := "example_tool";
     fc_arguments := ArgDict {[ "input" := JStr "x" ]} |}.

Definition tool_call_response : response :=
  Response "resp_3" "m" None
    [mk_item "function_call"
       [("call_id", VStr "c1"); ("name", VStr "example_tool");
        ("arguments", VStr "{}")]].

(** A remote model that never stops asking for the tool. *)
Definition looping_model : SDK :=
  {| responses_create := fun _ _ => Return tool_call_response;
     item_repr := fun _ => "<item>" |}.

Definition sample_config : agent_template.config :=
  {| agent_template.cfg_api_key := Some "hf_token";
     agent_template.cfg_model := "moonshotai/Kimi-K2-Instruct-0905:groq";
     agent_template.cfg_reasoning_effort := "medium" |}.

Definition web_search_item : item := mk_item "web_search_call" [("status", VStr "ok")].

(** ** Further source functions *)

(** [s.split(sep)] for a one-character separator: the pieces between the
    separators, in order; never an empty list. *)
Fixpoint split_on (sep : ascii) (s : string) : list string :=
  match s with
  | EmptyString => [EmptyString]
  | String c rest =>
      if Ascii.eqb c sep then EmptyString :: split_on sep rest
      else match split_on sep rest with
           | [] => [String c EmptyString]
           | piece :: pieces => String c piece :: pieces
           end
  end.

(** [v.split(sep)]: only strings have the method. *)
Definition py_split (sep : ascii) (v : pyval) : pyresult (list string) :=
  match v with
  | VStr s => Return (split_on sep s)
  | VNone => Raise (AttributeError "NoneType" "split")
  end.

(** multi_provider.py, lines 97, 137 and 161:
    [model.split(":")[-1] if ":" in model else "default"]. *)
Definition provider_suffix (model : string) : string :=
  if str_contains ":" model then List.last (split_on ":"%char model) ""
  else "default".

(** [f"{s:12}"]: padded with spaces on the right up to the width, never cut. *)
Definition str_ljust (s : string) (width : nat) : string :=
  s ++ str_repeat " " (width - String.length s).

(** [level.value] *)
Definition level_value (l : ReasoningLevel) : string :=
  match l with
  | RAW => "raw"
  | SUMMARY => "summary"
  | ENCRYPTED => "encrypted"
  | NONE => "none"
  end.

(** [str(e)], the message of an exception. *)
Definition exn_str (e : pyexn) : string :=
  match e with
  | AttributeError obj attr =>
      "'" ++ obj ++ "' object has no attribute '" ++ attr ++ "'"
  | TypeError msg => msg
  | TransportError _ msg => msg
  end.

(** How a script function ends: it returns, or it leaves through [exit]. *)
Inductive exit_status : Type :=
  | Finished
  | Exited (code : Z).


(** The handler every script uses: [print(f"Error: {e}"); exit(1)]. *)
Definition report_and_exit (e : pyexn) : io exit_status :=
  do_ print ("Error: " ++ exn_str e);
  io_ret (Exited 1).

(** [os.environ.get(name)] as a value, and its truth. *)
Definition environ_truthy (v : option string) : bool :=
  match v with
  | Some s => negb (String.eqb s "")
  | None => false
  end.

(** The default of [os.environ.get("MODEL", ...)] in every script. *)
Definition default_model : string := "moonshotai/Kimi-K2-Instruct-0905:groq".

(** [try: body  except Exception as e: handler(e)] *)
Definition io_catch {A : Type} (body : io A) (handler : pyexn -> io A) : io A :=
  fun w =>
    match body w with
    | (Return a, w') => (Return a, w')
    | (Raise e, w') => handler e w'
    end.

(** The same for a body whose normal end is the end of the function. *)
Definition io_try (body : io unit) (handler : pyexn -> io exit_status)
  : io exit_status :=
  io_catch (do_ body; io_ret Finished) handler.

(** [for x in xs: body] without loop state. *)
Fixpoint for_each {A : Type} (body : A -> io unit) (xs : list A) : io unit :=
  match xs with
  | [] => io_ret tt
  | x :: rest => do_ body x; for_each body rest
  end.

(** A multi-line string literal: its lines joined by newlines. *)
Definition lines_text (lines : list string) : string := String.concat nl lines.

(** The double quote character, as a string. *)
Definition dquote : string := String (Ascii.ascii_of_nat 34) "".

(** [os.environ.get(name, default)] *)
Definition environ_get (environ : gmap string string) (name default : string)
  : string :=
  match environ !! name with
  | Some v => v
  | None => default
  end.

(** The check every script makes first:
    [if not hf_token: print("Error: ..."); exit(1)]. *)
Definition missing_token : io exit_status :=
  do_ print "Error: HF_TOKEN environment variable required";
  io_ret (Exited 1).

(** A request with instructions and input only, as [create_basic_agent] and
    multi_provider.py's [create_agent] build it. *)
Definition plain_request (model : string) (input_text : string)
  (instructions : pyval) : request :=
  {| req_model := model;
     req_instructions := py_or instructions (VStr "You are a helpful assistant.");
     req_input := input_text;
     req_reasoning_effort := None;
     req_tools := None;
     req_tool_choice := None |}.

(** basic_agent.py: [create_basic_agent] and [main]. *)
Definition create_basic_agent `{sdk : SDK} (model input_text : string)
  (instructions : pyval) : io response :=
  do response <- create (plain_request model input_text instructions);
  io_ret response.

Definition basic_agent_main `{sdk : SDK} (environ : gmap string string)
  : io exit_status :=
  let model := environ_get environ "MODEL" default_model in
  let hf_token := environ !! "HF_TOKEN" in
  if negb (environ_truthy hf_token) then missing_token
  else
    do_ print ("Using model: " ++ model);
    do_ print "Endpoint: https://router.huggingface.co/v1/responses";
    io_try
      (do result <- create_basic_agent model
                      "Explain the difference between TCP and UDP in simple terms."
                      VNone;
       basic_agent.display_response result)
      report_and_exit.

(** agent_template.py: [CONFIG] as the environment fills it, and [main]. *)
Definition config_of_environ (environ : gmap string string)
  : agent_template.config :=
  {| agent_template.cfg_api_key := environ !! "HF_TOKEN";
     agent_template.cfg_model := environ_get environ "MODEL" default_model;
     agent_template.cfg_reasoning_effort :=
       environ_get environ "REASONING_EFFORT" "medium" |}.

Definition template_task : string :=
  lines_text
    [ "";
      "    Explain the key benefits of using the Open Responses API";
      "    for building autonomous agents.";
      "    " ].

Definition agent_template_main `{sdk : SDK} (CONFIG : agent_template.config)
  : io exit_status :=
  if negb (environ_truthy (agent_template.cfg_api_key CONFIG)) then missing_token
  else
    io_try
      (do _ <- agent_template.run_agent CONFIG template_task false; io_ret tt)
      report_and_exit.

(** ** reasoning_visibility.py: the displays *)

Module reasoning_visibility.
Section with_sdk.
Context `{sdk : SDK}.

(** The body of the loop of [display_reasoning] (lines 115-142); the state is
    the index of [enumerate]. *)
Definition display_step (i : nat) (it : item) : io nat :=
  do_ print ("[Step " ++ pretty (S i) ++ "]");
  let content := getattr it "content" VNone in
  let summary := getattr it "summary" VNone in
  let encrypted_content := getattr it "encrypted_content" VNone in
  do_ (if truthy content then
         do_ print "Type: Raw Trace";
         do_ print "Content:";
         do lines <- io_lift (py_split (Ascii.ascii_of_nat 10) content);
         for_each (fun line => print ("  " ++ line)) lines
       else if truthy summary then
         do_ print "Type: Summary";
         print ("Content: " ++ py_str summary)
       else if truthy encrypted_content then
         do_ print "Type: Encrypted";
         do_ print "Content: [ENCRYPTED - Not accessible]";
         do n <- io_lift (py_len encrypted_content);
         print ("Encrypted Length: " ++ pretty n ++ " chars")
       else
         do_ print "Type: Unknown";
         print ("Raw: " ++ item_repr it));
  do_ print "";
  io_ret (S i).

Definition display_reasoning (reasoning_items : list item) (level : ReasoningLevel)
  : io unit :=
  do_ print (nl ++ str_repeat "-" 60);
  do_ print "REASONING TRACE";
  do_ print (str_repeat "-" 60);
  do_ print ("Visibility Level: " ++ str_upper (level_value level));
  do_ print ("Total Items: " ++ pretty (length reasoning_items));
  do_ print (str_repeat "-" 60 ++ nl);
  do _ <- for_items display_step reasoning_items 0%nat;
  io_ret tt.

Definition create_agent_with_reasoning (model input_text reasoning_effort : string)
  : io response :=
  do response <-
    create {| req_model := model;
              req_instructions :=
                VStr "You are a helpful assistant. Show your step-by-step reasoning process.";
              req_input := input_text;
              req_reasoning_effort := Some reasoning_effort;
              req_tools := None;
              req_tool_choice := None |};
  io_ret response.

(** The body of the "ALL OUTPUT ITEMS" loop of
    [demonstrate_reasoning_visibility] (lines 239-250). *)
Definition show_item (total : nat) (i : nat) (it : item) : io nat :=
  do_ print ("[" ++ pretty (S i) ++ "/" ++ pretty total ++ "] Type: "
             ++ py_str (type_ it));
  do_ (if py_eq_str (type_ it) "reasoning" then
         do text <- io_lift (clipped (reasoning_text it "[encrypted]") 150);
         print ("    " ++ text)
       else if py_eq_str (type_ it) "message" then
         let content := py_or (getattr it "content" (VStr "")) (VStr "") in
         do head <- io_lift (py_slice content 150);
         print ("    " ++ head ++ "...")
       else
         print ("    " ++ String.substring 0 150 (item_repr it) ++ "..."));
  io_ret (S i).

Definition reasoning_prompt : string :=
  lines_text
    [ "";
      "    Solve this step by step:";
      "";
      "    A farmer has 15 chickens and 12 cows. Some of the animals get sick.";
      "    After treating them, the farmer has 80% of the original chickens";
      "    and 75% of the original cows healthy.";
      "";
      "    1. How many chickens are healthy?";
      "    2. How many cows are healthy?";
      "    3. What is the total number of healthy animals?";
      "    4. What percentage of all animals are healthy?";
      "";
      "    Show all your work and reasoning.";
      "    " ].

(** The [try] block of [demonstrate_reasoning_visibility] (lines 209-260). *)
Definition demonstrate_body (model reasoning_effort : string) : io unit :=
  do_ print (nl ++ "Sending request..." ++ nl);
  do response <- create_agent_with_reasoning model reasoning_prompt reasoning_effort;
  do analysis <- io_lift (analyze_reasoning_visibility response);
  do_ print (str_repeat "=" 60);
  do_ print "REASONING ANALYSIS";
  do_ print (str_repeat "=" 60);
  do_ print ("Response ID: " ++ resp_id response);
  do_ print ("Model: " ++ resp_model response);
  do_ print ("Visibility Level: " ++ level_value (level analysis));
  do_ print ("Reasoning Items: " ++ pretty (length (reasoning_items analysis)));
  do_ print ("Est. Reasoning Tokens: ~" ++ pretty (total_reasoning_tokens analysis));
  do_ print ("Details: " ++ details analysis);
  do_ (if bool_decide (reasoning_items analysis = []) then io_ret tt
       else display_reasoning (reasoning_items analysis) (level analysis));
  do_ print (str_repeat "-" 60);
  do_ print "FINAL ANSWER (output_text)";
  do_ print (str_repeat "-" 60);
  do_ print (output_text response);
  do_ print (nl ++ str_repeat "-" 60);
  do_ print "ALL OUTPUT ITEMS";
  do_ print (str_repeat "-" 60);
  do _ <- for_items (show_item (length (output response))) (output response) 0%nat;
  do_ print (nl ++ str_repeat "-" 60);
  do_ print "TOKEN USAGE";
  do_ print (str_repeat "-" 60);
  do_ print ("Input: " ++ pretty (in_tokens response));
  do_ print ("Output: " ++ pretty (out_tokens response));
  print ("Total: " ++ pretty (in_tokens response + out_tokens response)%Z).

Definition demonstrate_reasoning_visibility (environ : gmap string string)
  : io exit_status :=
  let model := environ_get environ "MODEL" default_model in
  let reasoning_effort := environ_get environ "REASONING_EFFORT" "medium" in
  let hf_token := environ !! "HF_TOKEN" in
  if negb (environ_truthy hf_token) then missing_token
  else
    do_ print (nl ++ str_repeat "=" 60);
    do_ print "REASONING VISIBILITY DEMONSTRATION";
    do_ print (str_repeat "=" 60);
    do_ print "Endpoint: https://router.huggingface.co/v1/responses";
    do_ print ("Model: " ++ model);
    do_ print ("Reasoning Effort: " ++ reasoning_effort);
    do_ print (str_repeat "=" 60);
    do_ print (nl ++ "Prompt:");
    do_ print reasoning_prompt;
    io_try (demonstrate_body model reasoning_effort) report_and_exit.
End with_sdk.
End reasoning_visibility.

(** ** sub_agent_loop.py *)

Module sub_agent_loop.

Definition string_property (description : string) : property :=
  {| prop_type := "string"; prop_description := description |}.

Definition tools : list tool_decl :=
  [ {| tool_type := "function";
       tool_name := "search_documents";
       tool_description :=
         "Search company documents and knowledge base for information";
       param_type := "object";
       param_properties :=
         [ ("query", string_property "The search query to find relevant documents");
           ("department",
            string_property "Optional department filter (sales, engineering, hr)") ];
       param_required := ["query"] |};
    {| tool_type := "function";
       tool_name := "analyze_data";
       tool_description := "Analyze numerical data and return insights";
       param_type := "object";
       param_properties :=
         [ ("data_source",
            string_property
              "The data source to analyze (e.g., 'q3_sales', 'user_metrics')");
           ("metric",
            string_property
              "The specific metric to analyze (e.g., 'revenue', 'growth', 'churn')") ];
       param_required := ["data_source"; "metric"] |};
    {| tool_type := "function";
       tool_name := "send_email";
       tool_description := "Send an email to specified recipients";
       param_type := "object";
       param_properties :=
         [ ("to", string_property "Email recipient address");
           ("subject", string_property "Email subject line");
           ("body", string_property "Email body content") ];
       param_required := ["to"; "subject"; "body"] |};
    {| tool_type := "function";
       tool_name := "create_report";
       tool_description := "Create a formatted report document";
       param_type := "object";
       param_properties :=
         [ ("title", string_property "Report title");
           ("sections",
            string_property "JSON array of section objects with title and content");
           ("format",
            string_property "Output format: 'markdown', 'html', or 'pdf'") ];
       param_required := ["title"; "sections"] |} ].

Section with_sdk.
Context `{sdk : SDK}.

Definition tools_request (model input_text : string) (instructions : pyval)
  : request :=
  {| req_model := model;
     req_instructions :=
       py_or instructions
         (VStr "You are a helpful assistant that completes tasks step by step.");
     req_input := input_text;
     req_reasoning_effort := None;
     req_tools := Some tools;
     req_tool_choice := Some "auto" |}.

Definition create_agent_with_tools (model input_text : string)
  (instructions : pyval) : io response :=
  do_ print (nl ++ "[REQUEST] Sending to HuggingFace router...");
  do_ print ("[MODEL] " ++ model);
  do_ print ("[INPUT] " ++ String.substring 0 100 input_text ++ "...");
  do response <- create (tools_request model input_text instructions);
  io_ret response.

(** The body of the loop of [display_execution_trace] (lines 154-182); the
    state is the index of [enumerate] and [tool_call_count]. *)
Definition trace_item (total : nat) (st : nat * nat) (it : item) : io (nat * nat) :=
  let i := fst st in
  let tool_call_count := snd st in
  let prefix := "[" ++ pretty (S i) ++ "/" ++ pretty total ++ "]" in
  do tool_call_count <-
    (if py_eq_str (type_ it) "reasoning" then
       let text :=
         py_or (py_or (getattr it "summary" VNone) (getattr it "content" VNone))
               (VStr "[encrypted reasoning]") in
       do_ print (prefix ++ " [REASONING]");
       do shown <- io_lift (clipped text 200);
       do_ print ("    " ++ shown);
       io_ret tool_call_count
     else if py_eq_str (type_ it) "function_call" then
       let tool_call_count := S tool_call_count in
       do_ print (prefix ++ " [TOOL CALL #" ++ pretty tool_call_count ++ "]");
       do_ print ("    Function: " ++ py_str (getattr it "name" (VStr "unknown")));
       do_ print ("    Arguments: " ++ py_str (getattr it "arguments" (VStr "{}")));
       io_ret tool_call_count
     else if py_eq_str (type_ it) "function_call_output" then
       let output := py_or (getattr it "output" (VStr "")) (VStr "") in
       do_ print (prefix ++ " [TOOL RESULT]");
       do shown <- io_lift (clipped output 200);
       do_ print ("    Result: " ++ shown);
       io_ret tool_call_count
     else if py_eq_str (type_ it) "message" then
       do_ print (prefix ++ " [FINAL RESPONSE]");
       do_ print ("    " ++ py_str (getattr it "content" (VStr "")));
       io_ret tool_call_count
     else
       do kind <- io_lift (py_upper (type_ it));
       do_ print (prefix ++ " [" ++ kind ++ "]");
       do_ print ("    " ++ item_repr it);
       io_ret tool_call_count);
  do_ print "";
  io_ret (S i, tool_call_count).

Definition display_execution_trace (r : response) : io unit :=
  do_ print (nl ++ str_repeat "=" 60);
  do_ print ("EXECUTION TRACE - " ++ resp_id r);
  do_ print (str_repeat "=" 60);
  do_ print ("Model: " ++ resp_model r);
  do_ print ("Total output items: " ++ pretty (length (output r)));
  do_ print (tokens_line r);
  do_ print (str_repeat "=" 60 ++ nl);
  do st <- for_items (trace_item (length (output r))) (output r) (0%nat, 0%nat);
  do_ print (str_repeat "=" 60);
  do_ print ("SUMMARY: " ++ pretty (snd st) ++ " tool calls made");
  do_ print (str_repeat "=" 60);
  do_ print (nl ++ "--- Final Output Text ---");
  print (output_text r).

Definition task : string :=
  lines_text
    [ "";
      "    I need you to complete the following multi-step task:";
      "";
      "    1. Search for Q3 2024 sales data in the sales department";
      "    2. Analyze the revenue and growth metrics from the sales data";
      "    3. Create a summary report with the key findings";
      "    4. Email the report to the team at team@company.com";
      "";
      "    Please complete all steps and provide a final summary.";
      "    " ].

Definition main (environ : gmap string string) : io exit_status :=
  let model := environ_get environ "MODEL" default_model in
  let hf_token := environ !! "HF_TOKEN" in
  if negb (environ_truthy hf_token) then missing_token
  else
    io_try
      (do result <- create_agent_with_tools model task VNone;
       display_execution_trace result)
      report_and_exit.
End with_sdk.
End sub_agent_loop.

(** ** multi_provider.py: comparing providers *)

(** The milliseconds [int((time.time() - start_time) * 1000)] measured around
    a request are the environment's: the model reads them from the clock,
    by the number of requests sent so far. *)
Class Clock : Type := {
  elapsed_ms : nat -> Z;
}.

(** An entry of [results]: [{"model", "response", "duration"}] or
    [{"model", "error"}]. *)
Inductive provider_result : Type :=
  | Succeeded (model : string) (r : response) (duration : Z)
  | Errored (model : string) (error : string).

Definition result_model (res : provider_result) : string :=
  match res with
  | Succeeded model _ _ => model
  | Errored model _ => model
  end.

Module multi_provider.
Section with_sdk.
Context `{sdk : SDK} `{clock : Clock}.

Definition create_agent (model input_text : string) (instructions : pyval)
  : io response :=
  do response <- create (plain_request model input_text instructions);
  io_ret response.

(** The [try] block of the loop of [compare_providers] (lines 101-125), up
    to the entry it appends. *)
Definition try_provider (prompt model : string) : io provider_result :=
  do_ print "Sending request...";
  do response <- create_agent model prompt VNone;
  do duration <- (fun w => (Return (elapsed_ms (length (sent w))), w));
  do_ print ("Response received in " ++ pretty duration ++ "ms");
  do_ print (tokens_line response);
  let reasoning_items :=
    filter (fun it => is_reasoning it = true) (output response) in
  do_ (if bool_decide (reasoning_items = []) then io_ret tt
       else
         do_ print (nl ++ "Reasoning (" ++ pretty (length reasoning_items)
                    ++ " items):");
         for_each
           (fun it =>
              do text <- io_lift (clipped (reasoning_text it "[no content]") 150);
              print ("  - " ++ text))
           reasoning_items);
  do_ print (nl ++ "Response:");
  let shown_text := py_or (VStr (output_text response)) (VStr "") in
  do text <- io_lift (clipped shown_text 300);
  do_ print ("  " ++ text);
  io_ret (Succeeded model response duration).

(** The first loop of [compare_providers] (lines 95-129). *)
Fixpoint collect_results (prompt : string) (models : list string)
  (results : list provider_result) : io (list provider_result) :=
  match models with
  | [] => io_ret results
  | model :: rest =>
      let suffix := provider_suffix model in
      do_ print (nl ++ "--- Testing " ++ str_upper suffix ++ " (" ++ model
                 ++ ") ---");
      do entry <-
        io_catch (try_provider prompt model)
          (fun e =>
             do_ print ("Error: " ++ exn_str e);
             io_ret (Errored model (exn_str e)));
      collect_results prompt rest (results ++ [entry])
  end.

(** One line of the summary (lines 136-145). *)
Definition summary_line (res : provider_result) : string :=
  let suffix := provider_suffix (result_model res) in
  match res with
  | Succeeded _ r duration =>
      str_ljust suffix 12 ++ " | SUCCESS | " ++ pretty duration ++ "ms | "
      ++ pretty (total_tokens r) ++ " tokens"
  | Errored _ error => str_ljust suffix 12 ++ " | FAILED  | " ++ error
  end.

Definition compare_providers (prompt : string) (models : list string) : io unit :=
  do_ print (nl ++ str_repeat "=" 70);
  do_ print "MULTI-PROVIDER COMPARISON";
  do_ print (str_repeat "=" 70);
  do_ print "Endpoint: https://router.huggingface.co/v1/responses";
  do_ print ("Prompt: " ++ dquote ++ prompt ++ dquote);
  do_ print ("Models: " ++ String.concat ", " models);
  do_ print (str_repeat "=" 70 ++ nl);
  do results <- collect_results prompt models [];
  do_ print (nl ++ str_repeat "=" 70);
  do_ print "COMPARISON SUMMARY";
  do_ print (str_repeat "=" 70);
  for_each (fun res => print (summary_line res)) results.
End with_sdk.
End multi_provider.

(** ** Predicates used in the statements *)

(** A run step that sends nothing, whether it returns or raises. *)
Definition silent {A : Type} (m : io A) : Prop :=
  forall w, sent (snd (m w)) = sent w.


(** A run step that returns the given value and sends nothing. *)
Definition returns {A : Type} (m : io A) (a : A) : Prop :=
  forall w, exists out, m w = (Return a, World out (sent w)).

(** The number of function calls among the items. *)
Definition count_function_calls (items : list item) : nat :=
  length (filter (fun it => py_eq_str (type_ it) "function_call" = true) items).

(** What the comparison records for a model whose request is sent at the
    given turn. *)
Definition provider_outcome `{sdk : SDK} `{clock : Clock} (prompt : string)
  (turn : nat) (model : string) : provider_result :=
  match responses_create turn (plain_request model prompt VNone) with
  | Return r => Succeeded model r (elapsed_ms (S turn))
  | Raise e => Errored model (exn_str e)
  end.

(** Sample inputs for the scripts. *)
Definition flaky_model : SDK :=
  {| responses_create := fun turn _ =>
       if Nat.even turn then Raise (TransportError 503 "upstream unavailable")
       else Return mixed_response;
     item_repr := fun _ => "<item>" |}.

Definition fixed_clock : Clock := {| elapsed_ms := fun n => (100 * Z.of_nat n)%Z |}.

Definition sample_environ : gmap string string :=
  {[ "HF_TOKEN" := "hf_token" ]}.

(** * Properties *)

(** ** Truthiness and the reasoning fields *)

Lemma truthy_is_str (v : pyval) : truthy v = true -> exists s, v = VStr s.
Proof. destruct v as [|s]; [discriminate | eauto]. Qed.

Lemma py_or_is_str (a : pyval) (s : string) : exists s', py_or a (VStr s) = VStr s'.
Proof.
  unfold py_or. destruct (truthy a) eqn:Ha; [|eauto].
  apply truthy_is_str in Ha as [s' ->]. eauto.
Qed.

(** The text the token estimate measures is the one the data model names:
    the two defaults of [getattr] and the trailing [or ""] only serve to keep
    [len] away from [None]. *)
Lemma item_tokens_spec (it : item) :
  item_tokens it = Return (Z.of_nat (String.length (spec_item_text it)) `div` 4)%Z.
Proof.
  unfold item_tokens, spec_item_text, field_text, getattr, py_or, truthy.
  destruct (attrs it !! "content") as [[|c]|];
    destruct (attrs it !! "summary") as [[|s]|];
    try (destruct (String.eqb c "") eqn:Hc;
         [apply String.eqb_eq in Hc; subst c|]);
    try (destruct (String.eqb s "") eqn:Hs;
         [apply String.eqb_eq in Hs; subst s|]);
    simpl; rewrite ?Hc, ?Hs; reflexivity.
Qed.

Lemma py_sum_item_tokens (items : list item) (acc : Z) :
  py_sum item_tokens items acc = Return (acc + spec_token_estimate items)%Z.
Proof.
  revert acc. induction items as [|it rest IH]; intros acc; simpl.
  - f_equal. lia.
  - rewrite item_tokens_spec. simpl. rewrite IH. f_equal. lia.
Qed.

(** [analyze_reasoning_visibility] with its token sum evaluated: the function
    always returns, and the level is decided by the three [any] tests. *)
Lemma analyze_reasoning_visibility_unfold (r : response) :
  let items := filter (fun it => is_reasoning it = true) (output r) in
  analyze_reasoning_visibility r =
    if bool_decide (items = []) then
      Return (Analysis NONE [] 0 "No reasoning items found in response.")
    else if existsb raw_content_test items then
      Return (Analysis RAW items (spec_token_estimate items)
        "Full raw reasoning traces available. This model provides complete transparency.")
    else if existsb (fun it => truthy (getattr it "summary" VNone)) items then
      Return (Analysis SUMMARY items (spec_token_estimate items)
        "Summarized reasoning available. Raw traces are not exposed.")
    else if existsb (fun it => truthy (getattr it "encrypted_content" VNone)) items then
      Return (Analysis ENCRYPTED items 0
        "Reasoning is encrypted and not accessible to the client.")
    else
      Return (Analysis NONE items 0 "Unknown reasoning format.").
Proof.
  intros items. unfold analyze_reasoning_visibility. fold items.
  rewrite py_sum_item_tokens. simpl. reflexivity.
Qed.

Lemma existsb_elem_of {A : Type} (f : A -> bool) (l : list A) (x : A) :
  x ∈ l -> f x = true -> existsb f l = true.
Proof.
  intros Hin Hf. apply existsb_exists. exists x. split; [|exact Hf].
  now apply list_elem_of_In.
Qed.

Lemma existsb_none {A : Type} (f : A -> bool) (l : list A) :
  (forall x, x ∈ l -> f x = false) -> existsb f l = false.
Proof.
  intros Hall. induction l as [|y l IH]; simpl; [reflexivity|].
  rewrite Hall by left. apply IH. intros x Hx. apply Hall. now right.
Qed.

Lemma reasoning_items_elem (r : response) (it : item) :
  it ∈ filter (fun it => is_reasoning it = true) (output r)
  <-> is_reasoning it = true /\ it ∈ output r.
Proof. apply (list_elem_of_filter (fun it => is_reasoning it = true)). Qed.

Lemma reasoning_items_nonempty (r : response) (it : item) :
  it ∈ output r -> is_reasoning it = true ->
  bool_decide (filter (fun it => is_reasoning it = true) (output r) = []) = false.
Proof.
  intros Hin Hr. apply bool_decide_eq_false. intros Hnil.
  assert (Hmem : it ∈ filter (fun it => is_reasoning it = true) (output r))
    by now apply reasoning_items_elem.
  rewrite Hnil in Hmem. inversion Hmem.
Qed.

(** ** The reasoning visibility resolver *)

(** C1. Whenever the output holds a reasoning item with non-empty [content]
    and empty [encrypted_content], [analyze_reasoning_visibility] returns
    level [RAW], whatever the other items carry (summaries included); the
    per-item [get_reasoning] classifies that item as [RAW] with its content. *)
Theorem raw_item_wins (r : response) (it : item) :
  it ∈ output r ->
  is_reasoning it = true ->
  truthy (getattr it "content" VNone) = true ->
  truthy (getattr it "encrypted_content" VNone) = false ->
  (exists a,
      analyze_reasoning_visibility r = Return a
      /\ level a = RAW
      /\ reasoning_items a = filter (fun it => is_reasoning it = true) (output r)
      /\ details a =
           "Full raw reasoning traces available. This model provides complete transparency.")
  /\ get_reasoning it = (RAW, getattr it "content" VNone).
Proof.
  intros Hin Hr Hc He. split.
  - rewrite analyze_reasoning_visibility_unfold. cbv zeta.
    rewrite (reasoning_items_nonempty r it Hin Hr).
    rewrite (existsb_elem_of raw_content_test _ it).
    + eexists. repeat split; reflexivity.
    + now apply reasoning_items_elem.
    + unfold raw_content_test. now rewrite Hc, He.
  - unfold get_reasoning. unfold is_reasoning in Hr. rewrite Hr. simpl.
    now rewrite Hc, He.
Qed.

(** One raw item between two summary-only items and a message. *)
Lemma raw_item_wins_witness :
  (exists a,
      analyze_reasoning_visibility mixed_response = Return a
      /\ level a = RAW
      /\ reasoning_items a =
           filter (fun it => is_reasoning it = true) (output mixed_response)
      /\ details a =
           "Full raw reasoning traces available. This model provides complete transparency.")
  /\ get_reasoning raw_item = (RAW, getattr raw_item "content" VNone).
Proof.
  apply (raw_item_wins mixed_response raw_item).
  - apply list_elem_of_In. simpl. tauto.
  - reflexivity.
  - reflexivity.
  - reflexivity.
Defined.

(** C4. When no reasoning item has non-empty [content] or [summary] and some
    reasoning item has non-empty [encrypted_content], the resolver returns
    level [ENCRYPTED] with a token estimate of exactly 0. *)
Theorem encrypted_only_zero_tokens (r : response) :
  (forall it, it ∈ output r -> is_reasoning it = true ->
     truthy (getattr it "content" VNone) = false
     /\ truthy (getattr it "summary" VNone) = false) ->
  (exists it, it ∈ output r /\ is_reasoning it = true
     /\ truthy (getattr it "encrypted_content" VNone) = true) ->
  analyze_reasoning_visibility r =
    Return (Analysis ENCRYPTED
              (filter (fun it => is_reasoning it = true) (output r)) 0
              "Reasoning is encrypted and not accessible to the client.").
Proof.
  intros Hplain (it & Hin & Hr & He).
  rewrite analyze_reasoning_visibility_unfold. cbv zeta.
  rewrite (reasoning_items_nonempty r it Hin Hr).
  rewrite existsb_none.
  2:{ intros x Hx. apply reasoning_items_elem in Hx as [Hxr Hxin].
      unfold raw_content_test.
      now destruct (Hplain x Hxin Hxr) as [-> _]. }
  rewrite existsb_none.
  2:{ intros x Hx. apply reasoning_items_elem in Hx as [Hxr Hxin].
      now destruct (Hplain x Hxin Hxr) as [_ ->]. }
  rewrite (existsb_elem_of _ _ it); [reflexivity | | exact He].
  now apply reasoning_items_elem.
Qed.

Lemma encrypted_only_zero_tokens_witness :
  analyze_reasoning_visibility encrypted_response =
    Return (Analysis ENCRYPTED
              (filter (fun it => is_reasoning it = true) (output encrypted_response)) 0
              "Reasoning is encrypted and not accessible to the client.").
Proof.
  apply (encrypted_only_zero_tokens encrypted_response).
  - intros it Hin _. apply list_elem_of_In in Hin. simpl in Hin.
    destruct Hin as [<- | [<- | []]]; split; reflexivity.
  - exists encrypted_item. split; [|split; reflexivity].
    apply list_elem_of_In. simpl. tauto.
Defined.

(** Read from the result: whenever the level reported is [RAW] or [SUMMARY],
    the estimate is the sum below. *)
Lemma token_estimate_at_level (r : response) :
  exists a,
    analyze_reasoning_visibility r = Return a
    /\ (level a = RAW \/ level a = SUMMARY ->
        total_reasoning_tokens a =
          spec_token_estimate (filter (fun it => is_reasoning it = true) (output r))).
Proof.
  rewrite analyze_reasoning_visibility_unfold. cbv zeta.
  repeat match goal with
         | |- context [if ?b then _ else _] => destruct b
         end;
    eexists; (split; [reflexivity|]); simpl;
    intros [Hl | Hl]; (discriminate Hl || reflexivity).
Qed.

(** C5. Whenever the output holds a reasoning item that passes the raw test
    (content and no encrypted content) or has a summary, which is when the
    list resolves to [RAW] or [SUMMARY], [analyze_reasoning_visibility]
    returns that level, and its token estimate is the sum over all reasoning
    items of [floor(len(content or summary) / 4)]. *)
Theorem token_estimate_raw_or_summary (r : response) (it : item) :
  it ∈ output r ->
  is_reasoning it = true ->
  raw_content_test it = true \/ truthy (getattr it "summary" VNone) = true ->
  exists a,
    analyze_reasoning_visibility r = Return a
    /\ (level a = RAW \/ level a = SUMMARY)
    /\ reasoning_items a = filter (fun it => is_reasoning it = true) (output r)
    /\ total_reasoning_tokens a =
         spec_token_estimate (filter (fun it => is_reasoning it = true) (output r)).
Proof.
  intros Hin Hr Hcase.
  assert (Hmem : it ∈ filter (fun it => is_reasoning it = true) (output r))
    by now apply reasoning_items_elem.
  rewrite analyze_reasoning_visibility_unfold. cbv zeta.
  rewrite (reasoning_items_nonempty r it Hin Hr).
  destruct (existsb raw_content_test
              (filter (fun it => is_reasoning it = true) (output r))) eqn:Hraw.
  - eexists. split; [reflexivity|]. simpl. auto.
  - destruct Hcase as [Hc | Hs].
    + rewrite (existsb_elem_of raw_content_test _ it Hmem Hc) in Hraw.
      discriminate Hraw.
    + rewrite (existsb_elem_of
                 (fun it => truthy (getattr it "summary" VNone)) _ it Hmem Hs).
      eexists. split; [reflexivity|]. simpl. auto.
Qed.

(** A summary-only list: 13 // 4 + 6 // 4 = 3 + 1. *)
Lemma token_estimate_raw_or_summary_witness :
  exists a,
    analyze_reasoning_visibility
      (Response "r" "m" None [summary_item "first summary"; summary_item "second"])
    = Return a
    /\ (level a = RAW \/ level a = SUMMARY)
    /\ reasoning_items a =
         filter (fun it => is_reasoning it = true)
           (output (Response "r" "m" None
                      [summary_item "first summary"; summary_item "second"]))
    /\ total_reasoning_tokens a =
         spec_token_estimate
           (filter (fun it => is_reasoning it = true)
              (output (Response "r" "m" None
                         [summary_item "first summary"; summary_item "second"]))).
Proof.
  apply (token_estimate_raw_or_summary
           (Response "r" "m" None [summary_item "first summary"; summary_item "second"])
           (summary_item "second")).
  - apply list_elem_of_In. simpl. tauto.
  - reflexivity.
  - right. reflexivity.
Defined.

(** The estimate on that list is 4, at level [SUMMARY]. *)
Example token_estimate_summaries :
  analyze_reasoning_visibility
    (Response "r" "m" None [summary_item "first summary"; summary_item "second"])
  = Return (Analysis SUMMARY [summary_item "first summary"; summary_item "second"] 4
              "Summarized reasoning available. Raw traces are not exposed.").
Proof. vm_compute. reflexivity. Qed.

(** On the mixed sample: 13 // 4 + 18 // 4 + 6 // 4 = 3 + 4 + 1. *)
Example token_estimate_mixed :
  analyze_reasoning_visibility mixed_response =
    Return (Analysis RAW
              [summary_item "first summary"; raw_item; summary_item "second"] 8
              "Full raw reasoning traces available. This model provides complete transparency.").
Proof. vm_compute. reflexivity. Qed.

(** C6. A response with an empty output has the empty [output_text], and the
    resolver returns level [NONE] with no reasoning items and a zero token
    estimate. *)
Theorem empty_output_is_none (id model : string) (u : option usage) :
  output_text (Response id model u []) = ""
  /\ analyze_reasoning_visibility (Response id model u []) =
       Return (Analysis NONE [] 0 "No reasoning items found in response.").
Proof. split; reflexivity. Qed.

(** ** Usage totals *)

(** C8. The total is [input_tokens + output_tokens] when the response has a
    usage block and 0 when it has none; 12 and 34 give 46. *)
Theorem total_tokens_spec (r : response) :
  total_tokens r =
    match resp_usage r with
    | Some u => (input_tokens u + output_tokens u)%Z
    | None => 0%Z
    end
  /\ total_tokens (Response (resp_id r) (resp_model r) (Some (Usage 12 34)) (output r))
     = 46%Z.
Proof.
  split; [|reflexivity].
  unfold total_tokens, in_tokens, out_tokens. now destruct (resp_usage r).
Qed.

(** ** agent_template.py: [get_reasoning] *)

(** C10. For an item whose [type] is not ["reasoning"], [get_reasoning]
    returns [(NONE, "")], whatever attributes the item has. *)
Theorem get_reasoning_other_kind (ty : pyval) (fields : gmap string pyval) :
  ty <> VStr "reasoning" ->
  get_reasoning (Item ty fields) = (NONE, VStr "").
Proof.
  intros Hty. unfold get_reasoning. simpl.
  destruct ty as [|s]; simpl; [reflexivity|].
  destruct (String.eqb_spec s "reasoning") as [->|Hne]; [congruence | reflexivity].
Qed.

Lemma get_reasoning_other_kind_witness :
  get_reasoning (Item (VStr "message") {[ "content" := VStr "hello" ]})
  = (NONE, VStr "").
Proof.
  apply (get_reasoning_other_kind (VStr "message") {[ "content" := VStr "hello" ]}).
  discriminate.
Defined.

(** ** agent_template.py: [execute_tool] *)

Lemma prefix_app (s t : string) : String.prefix s (s ++ t) = true.
Proof.
  induction s as [|c s IH]; simpl.
  - now destruct t.
  - destruct (Ascii.ascii_dec c c) as [_|Hne]; [exact IH | congruence].
Qed.

Lemma str_contains_app (pre sub post : string) :
  str_contains sub (pre ++ sub ++ post) = true.
Proof.
  induction pre as [|c pre IH].
  - change ("" ++ sub ++ post) with (sub ++ post).
    destruct (sub ++ post) eqn:E; unfold str_contains; fold str_contains;
      rewrite <- E, prefix_app; reflexivity.
  - change (String c pre ++ sub ++ post) with (String c (pre ++ sub ++ post)).
    unfold str_contains; fold str_contains. rewrite IH. apply orb_true_r.
Qed.

Lemma str_app_empty_r (s : string) : s ++ "" = s.
Proof.
  induction s as [|c s IH]; [reflexivity|].
  change (String c s ++ "") with (String c (s ++ "")). now rewrite IH.
Qed.

(** C3. For a name other than the registered one, [execute_tool] returns
    (it does not raise, whatever was passed as arguments) the string
    ["Unknown tool: "] followed by the name, which thus contains the name. *)
Theorem execute_tool_unknown (name : string) (arguments : pyarg) :
  name <> "example_tool" ->
  exists out,
    execute_tool name arguments = Return out
    /\ out = "Unknown tool: " ++ name
    /\ str_contains name out = true.
Proof.
  intros Hname. exists ("Unknown tool: " ++ name). split; [|split].
  - unfold execute_tool.
    destruct (String.eqb_spec name "example_tool") as [E|_]; [contradiction | reflexivity].
  - reflexivity.
  - pose proof (str_contains_app "Unknown tool: " name "") as Hc.
    now rewrite str_app_empty_r in Hc.
Qed.

(** An unregistered name, with arguments on which [.get] would fail. *)
Lemma execute_tool_unknown_witness :
  exists out,
    execute_tool "search_documents" (ArgOther VNone) = Return out
    /\ out = "Unknown tool: " ++ "search_documents"
    /\ str_contains "search_documents" out = true.
Proof.
  apply (execute_tool_unknown "search_documents" (ArgOther VNone)).
  discriminate.
Defined.

(** The registered branch does read the arguments: passing something that
    is not a dictionary raises there. *)
Example execute_tool_registered_needs_dict :
  execute_tool "example_tool" (ArgOther (VStr "{}")) = Raise (AttributeError "str" "get").
Proof. reflexivity. Qed.

(** C2, as stated, fails: two function calls that differ only in their call
    id get the same result from the dispatch entry point, a bare string, so
    no reading of the result gives back the call id of the call it answers. *)
Lemma dispatch_forgets_call_id :
  dispatch call_c1 = Return "Processed: x"
  /\ dispatch call_c2 = Return "Processed: x"
  /\ fc_call_id call_c1 <> fc_call_id call_c2
  /\ ~ (exists call_id_of : pyresult string -> string,
          call_id_of (dispatch call_c1) = fc_call_id call_c1
          /\ call_id_of (dispatch call_c2) = fc_call_id call_c2).
Proof.
  assert (H1 : dispatch call_c1 = Return "Processed: x") by (vm_compute; reflexivity).
  assert (H2 : dispatch call_c2 = Return "Processed: x") by (vm_compute; reflexivity).
  repeat split; try assumption.
  - discriminate.
  - intros (f & Hf1 & Hf2). rewrite H1 in Hf1. rewrite H2 in Hf2.
    rewrite Hf1 in Hf2. discriminate Hf2.
Qed.

(** C2, amended. A call of the registered tool with decoded arguments makes
    [execute_tool] return the bare string ["Processed: "] followed by the
    text of the [input] argument (empty when missing); the result is the
    same for every call id. *)
Theorem dispatch_registered_tool (call : FunctionCall) (d : gmap string jval) :
  fc_name call = "example_tool" ->
  fc_arguments call = ArgDict d ->
  dispatch call = Return ("Processed: " ++ jval_str (default (JStr "") (d !! "input")))
  /\ forall other_id : string,
       dispatch {| fc_call_id := other_id;
                   fc_name := fc_name call;
                   fc_arguments := fc_arguments call |} = dispatch call.
Proof.
  intros Hname Hargs. split; [|reflexivity].
  unfold dispatch, execute_tool. rewrite Hname, Hargs. simpl.
  now destruct (d !! "input").
Qed.

Lemma dispatch_registered_tool_witness :
  dispatch call_c1 = Return ("Processed: " ++ "x")
  /\ forall other_id : string,
       dispatch {| fc_call_id := other_id;
                   fc_name := fc_name call_c1;
                   fc_arguments := fc_arguments call_c1 |} = dispatch call_c1.
Proof.
  exact (dispatch_registered_tool call_c1 {[ "input" := JStr "x" ]} eq_refl eq_refl).
Defined.

(** ** Displaying items *)

Lemma not_known_kind (t : string) :
  t ∉ known_kinds ->
  String.eqb t "reasoning" = false
  /\ String.eqb t "message" = false
  /\ String.eqb t "function_call" = false
  /\ String.eqb t "function_call_output" = false.
Proof.
  unfold known_kinds. intros Hnot.
  repeat split; apply String.eqb_neq; intros ->; apply Hnot;
    apply list_elem_of_In; simpl; tauto.
Qed.

(** C9. An item whose [type] is a string other than the four known kinds is
    printed by the catch-all branch of [display_response], in basic_agent.py
    and in agent_template.py alike: one line with the upper-cased kind and
    the item's text, no exception, the tool-call counter unchanged. *)
Theorem unknown_kind_is_displayed `{sdk : SDK} (it : item) (t : string)
  (count : nat) (w : world) :
  type_ it = VStr t ->
  t ∉ known_kinds ->
  basic_agent.display_item tt it w =
    (Return tt,
     World (stdout w ++ ["[" ++ str_upper t ++ "] " ++ item_repr it]) (sent w))
  /\ agent_template.display_item count it w =
    (Return count,
     World ((stdout w ++ ["[" ++ str_upper t ++ "] " ++ item_repr it]) ++ [""])
           (sent w)).
Proof.
  intros Hty Hnot.
  destruct (not_known_kind t Hnot) as (Hr & Hm & Hc & Ho).
  unfold basic_agent.display_item, agent_template.display_item.
  rewrite Hty. simpl. rewrite Hr, Hm, Hc, Ho. split; reflexivity.
Qed.

Lemma unknown_kind_is_displayed_witness :
  basic_agent.display_item (sdk:=looping_model) tt web_search_item (World [] []) =
    (Return tt, World ([] ++ ["[" ++ str_upper "web_search_call" ++ "] " ++ "<item>"]) [])
  /\ agent_template.display_item (sdk:=looping_model) 2 web_search_item (World [] []) =
    (Return 2%nat,
     World (([] ++ ["[" ++ str_upper "web_search_call" ++ "] " ++ "<item>"]) ++ [""]) []).
Proof.
  apply (unknown_kind_is_displayed (sdk:=looping_model) web_search_item
           "web_search_call" 2 (World [] [])).
  - reflexivity.
  - intros Hin. apply list_elem_of_In in Hin. simpl in Hin.
    repeat (destruct Hin as [Hin | Hin]; [discriminate Hin|]). exact Hin.
Defined.

(** In basic_agent.py the tool items have no branch of their own and take
    the catch-all one as well. *)
Example basic_agent_function_call_catch_all :
  basic_agent.display_item (sdk:=looping_model) tt
    (mk_item "function_call" [("name", VStr "example_tool")]) (World [] [])
  = (Return tt, World ["[FUNCTION_CALL] <item>"] []).
Proof. vm_compute. reflexivity. Qed.

(** The catch-all branch relies on [type] being a string: on [None] the call
    of [.upper()] raises. *)
Example display_item_type_none :
  agent_template.display_item (sdk:=looping_model) 0 (Item VNone ∅) (World [] [])
  = (Raise (AttributeError "NoneType" "upper"), World [] []).
Proof. vm_compute. reflexivity. Qed.

(** ** Runs that return and send nothing *)

Lemma quiet_ret {A : Type} (a : A) : quiet (io_ret a).
Proof. intros [out s]. exists a, out. reflexivity. Qed.

Lemma quiet_print (line : string) : quiet (print line).
Proof. intros w. exists tt, (stdout w ++ [line])%list. reflexivity. Qed.

Lemma quiet_lift {A : Type} (m : pyresult A) :
  (exists a, m = Return a) -> quiet (io_lift m).
Proof. intros [a ->] [out s]. exists a, out. reflexivity. Qed.

Lemma quiet_bind {A B : Type} (m : io A) (k : A -> io B) :
  quiet m -> (forall a, quiet (k a)) -> quiet (io_bind m k).
Proof.
  intros Hm Hk w. destruct (Hm w) as (a & out & Em).
  destruct (Hk a (World out (sent w))) as (b & out' & Ek).
  exists b, out'. unfold io_bind. rewrite Em. exact Ek.
Qed.

Lemma clipped_returns (s : string) (n : nat) :
  exists out, clipped (VStr s) n = Return out.
Proof. unfold clipped. simpl. eauto. Qed.

Lemma clipped_or_returns (a : pyval) (s : string) (n : nat) :
  exists out, clipped (py_or a (VStr s)) n = Return out.
Proof. destruct (py_or_is_str a s) as [s' ->]. apply clipped_returns. Qed.

Ltac quiet_steps :=
  repeat first
    [ apply quiet_ret
    | apply quiet_print
    | apply quiet_bind; [|intros ?]
    | apply quiet_lift ].

Lemma display_item_quiet `{sdk : SDK} (count : nat) (it : item) :
  (exists t, type_ it = VStr t) ->
  quiet (agent_template.display_item count it).
Proof.
  intros [t Hty]. unfold agent_template.display_item.
  apply quiet_bind; [|intros ?; quiet_steps].
  repeat match goal with
         | |- quiet (if ?b then _ else _) => destruct b
         end; quiet_steps.
  - apply clipped_or_returns.
  - apply clipped_or_returns.
  - rewrite Hty. simpl. eauto.
Qed.

Lemma for_items_quiet `{sdk : SDK} (items : list item) (count : nat) :
  typed_items items ->
  quiet (for_items agent_template.display_item items count).
Proof.
  intros Hty. revert count.
  induction Hty as [|it rest Hit _ IH]; intros count; simpl.
  - apply quiet_ret.
  - apply quiet_bind; [now apply display_item_quiet | intros count'; apply IH].
Qed.

Lemma display_response_quiet `{sdk : SDK} (r : response) :
  typed_items (output r) -> quiet (agent_template.display_response r).
Proof.
  intros Hty. unfold agent_template.display_response.
  repeat (apply quiet_bind; [try apply quiet_print | intros ?]);
    try apply quiet_print.
  now apply for_items_quiet.
Qed.

(** ** agent_template.py: [run_agent] *)

Lemma io_bind_print {B : Type} (line : string) (k : unit -> io B) (w : world) :
  io_bind (print line) k w = k tt (World (stdout w ++ [line]) (sent w)).
Proof. reflexivity. Qed.

(** [create_agent] sends its request once and hands back what the transport
    answered, an exception included. *)
Lemma create_agent_once `{sdk : SDK} (CONFIG : agent_template.config) (task : string)
  (instructions : pyval) (tools : option (list tool_decl)) (effort : string)
  (w : world) :
  let req := agent_template.request_params CONFIG task instructions tools effort in
  agent_template.create_agent CONFIG task instructions tools effort w =
    (responses_create (length (sent w)) req, World (stdout w) (sent w ++ [req])).
Proof.
  intros req. unfold agent_template.create_agent, io_bind, create. fold req.
  now destruct (responses_create (length (sent w)) req).
Qed.

(** C7, as stated, fails: against a remote model that answers every request
    with another function call, [run_agent] sends one request, returns that
    response with the call still pending, and so ends in the ordinary
    terminal state, not in [LoopLimitExceeded]. *)
Lemma run_agent_no_loop_limit :
  fst (agent_template.run_agent (sdk:=looping_model) sample_config "task" true
         (World [] [])) = Return tool_call_response
  /\ length (sent (snd (agent_template.run_agent (sdk:=looping_model) sample_config
                          "task" true (World [] [])))) = 1%nat
  /\ run_outcome (fst (agent_template.run_agent (sdk:=looping_model) sample_config
                         "task" true (World [] []))) <> LoopLimitExceeded.
Proof.
  assert (E : fst (agent_template.run_agent (sdk:=looping_model) sample_config
                     "task" true (World [] [])) = Return tool_call_response)
    by (vm_compute; reflexivity).
  split; [exact E|]. split; [vm_compute; reflexivity|].
  rewrite E. discriminate.
Qed.

(** C7, amended. Against a remote model that on every turn answers with a
    function call and never a message, [run_agent] does not loop: it sends
    exactly one request, returns the response to it as it is, the function
    call still in its output, and ends in the ordinary terminal state. *)
Theorem run_agent_single_request `{sdk : SDK} (CONFIG : agent_template.config)
  (task : string) (use_tools : bool) (w : world) :
  always_calls_tool ->
  exists (r : response) (req : request) (out : list string),
    agent_template.run_agent CONFIG task use_tools w =
      (Return r, World out (sent w ++ [req]))
    /\ responses_create (length (sent w)) req = Return r
    /\ Exists (fun it => type_ it = VStr "function_call") (output r)
    /\ run_outcome (fst (agent_template.run_agent CONFIG task use_tools w))
       = Terminal r.
Proof.
  intros Hmodel.
  assert (Hrun : exists r req out,
             agent_template.run_agent CONFIG task use_tools w =
               (Return r, World out (sent w ++ [req]))
             /\ responses_create (length (sent w)) req = Return r
             /\ Exists (fun it => type_ it = VStr "function_call") (output r)).
  { unfold agent_template.run_agent.
    rewrite !io_bind_print. cbn [sent stdout].
    set (tools := if use_tools then Some agent_template.TOOLS else None).
    set (effort := agent_template.cfg_reasoning_effort CONFIG).
    set (w1 := World _ (sent w)).
    unfold io_bind at 1. rewrite create_agent_once. cbv zeta.
    set (req := agent_template.request_params CONFIG task VNone tools effort).
    change (sent w1) with (sent w).
    destruct (Hmodel (length (sent w)) req) as (r & Hr & Hty & Hcall & _).
    rewrite Hr.
    destruct (display_response_quiet r Hty (World (stdout w1) (sent w ++ [req])))
      as (u & out & Hd).
    unfold io_bind. rewrite Hd. cbn [sent].
    exists r, req, out. split; [reflexivity|]. split; [exact Hr | exact Hcall]. }
  destruct Hrun as (r & req & out & Hrun & Hr & Hcall).
  exists r, req, out. rewrite Hrun. repeat split; assumption.
Qed.

Lemma run_agent_single_request_witness :
  exists (r : response) (req : request) (out : list string),
    agent_template.run_agent (sdk:=looping_model) sample_config "task" true
      (World [] []) = (Return r, World out ([] ++ [req]))
    /\ responses_create (SDK:=looping_model) (length (A:=request) []) req = Return r
    /\ Exists (fun it => type_ it = VStr "function_call") (output r)
    /\ run_outcome (fst (agent_template.run_agent (sdk:=looping_model) sample_config
                           "task" true (World [] []))) = Terminal r.
Proof.
  apply (run_agent_single_request (sdk:=looping_model) sample_config "task" true
           (World [] [])).
  intros turn req. exists tool_call_response. split; [reflexivity|].
  split; [|split].
  - repeat constructor. now exists "function_call".
  - constructor. reflexivity.
  - repeat constructor. discriminate.
Defined.

(** * Further properties *)

(** ** Splitting and the provider suffix *)

Lemma split_on_nonempty (sep : ascii) (s : string) : split_on sep s <> [].
Proof.
  destruct s as [|c rest]; simpl; [discriminate|].
  destruct (Ascii.eqb c sep); [discriminate|].
  destruct (split_on sep rest); discriminate.
Qed.

Lemma concat_cons_char (sep : string) (c : ascii) (piece : string)
  (pieces : list string) :
  String.concat sep (String c piece :: pieces)
  = String c (String.concat sep (piece :: pieces)).
Proof. destruct pieces; reflexivity. Qed.

(** Joining the pieces of [s.split(sep)] with the separator gives [s] back. *)
Lemma split_on_join (sep : ascii) (s : string) :
  String.concat (String sep EmptyString) (split_on sep s) = s.
Proof.
  induction s as [|c rest IH]; [reflexivity|].
  cbn [split_on]. destruct (Ascii.eqb_spec c sep) as [->|Hne].
  - pose proof (split_on_nonempty sep rest) as Hne.
    destruct (split_on sep rest) as [|piece pieces] eqn:E; [congruence|].
    change (String.concat (String sep "") ("" :: piece :: pieces))
      with ("" ++ String sep "" ++ String.concat (String sep "") (piece :: pieces)).
    rewrite IH. reflexivity.
  - pose proof (split_on_nonempty sep rest) as Hnil.
    destruct (split_on sep rest) as [|piece pieces] eqn:E; [congruence|].
    rewrite concat_cons_char, IH. reflexivity.
Qed.

Lemma str_contains_char_cons (sep c : ascii) (rest : string) :
  str_contains (String sep EmptyString) (String c rest)
  = Ascii.eqb c sep || str_contains (String sep EmptyString) rest.
Proof.
  cbn [str_contains String.prefix].
  destruct (Ascii.ascii_dec sep c) as [->|Hne].
  - rewrite Ascii.eqb_refl. now destruct rest.
  - destruct (Ascii.eqb_spec c sep) as [->|_]; [congruence | reflexivity].
Qed.

Lemma str_contains_char_empty (sep : ascii) :
  str_contains (String sep EmptyString) EmptyString = false.
Proof. reflexivity. Qed.

Lemma split_on_pieces_clean (sep : ascii) (s : string) :
  Forall (fun piece => str_contains (String sep EmptyString) piece = false)
         (split_on sep s).
Proof.
  induction s as [|c rest IH]; cbn [split_on].
  - repeat constructor.
  - destruct (Ascii.eqb c sep) eqn:Ec.
    + constructor; [reflexivity | exact IH].
    + destruct (split_on sep rest) as [|piece pieces]; [repeat constructor; now rewrite str_contains_char_cons, Ec|].
      inversion IH as [|? ? Hpiece Hrest]; subst.
      constructor; [|exact Hrest].
      now rewrite str_contains_char_cons, Ec, Hpiece.
Qed.

Lemma split_on_clean (sep : ascii) (s : string) :
  str_contains (String sep EmptyString) s = false -> split_on sep s = [s].
Proof.
  induction s as [|c rest IH]; intros Hclean; [reflexivity|].
  rewrite str_contains_char_cons in Hclean.
  apply orb_false_iff in Hclean as [Hc Hrest].
  cbn [split_on]. rewrite Hc, (IH Hrest). reflexivity.
Qed.

Lemma split_on_app (sep : ascii) (pre rest : string) :
  split_on sep (pre ++ String sep rest) = (split_on sep pre ++ split_on sep rest)%list.
Proof.
  induction pre as [|c pre IH].
  - change ("" ++ String sep rest) with (String sep rest).
    cbn [split_on]. now rewrite Ascii.eqb_refl.
  - change (String c pre ++ String sep rest) with (String c (pre ++ String sep rest)).
    cbn [split_on]. rewrite IH.
    destruct (Ascii.eqb c sep); [reflexivity|].
    pose proof (split_on_nonempty sep pre) as Hne.
    destruct (split_on sep pre) as [|piece pieces]; [congruence | reflexivity].
Qed.

Lemma last_app_nonempty {A : Type} (l1 l2 : list A) (d : A) :
  l2 <> [] -> List.last (l1 ++ l2) d = List.last l2 d.
Proof.
  intros Hne. induction l1 as [|x l1 IH]; [reflexivity|].
  cbn [app]. destruct (l1 ++ l2)%list eqn:E.
  - apply app_eq_nil in E as [_ ->]. congruence.
  - rewrite <- E in *. cbn [List.last]. rewrite E. rewrite <- E. exact IH.
Qed.

(** X1. For a model name of the form [pre:suf] where [suf] has no colon, the
    provider suffix is [suf], whatever [pre] holds (further colons included);
    a name that ends in a colon thus has the empty suffix. *)
Theorem provider_suffix_after_last_colon (pre suf : string) :
  str_contains ":" suf = false ->
  provider_suffix (pre ++ ":" ++ suf) = suf.
Proof.
  intros Hclean. unfold provider_suffix.
  rewrite str_contains_app.
  change (pre ++ ":" ++ suf) with (pre ++ String ":"%char suf).
  rewrite split_on_app, last_app_nonempty by apply split_on_nonempty.
  now rewrite (split_on_clean _ _ Hclean).
Qed.

Lemma provider_suffix_after_last_colon_witness :
  provider_suffix ("org/model:v2" ++ ":" ++ "groq") = "groq".
Proof.
  apply (provider_suffix_after_last_colon "org/model:v2" "groq"). reflexivity.
Defined.

Lemma last_Forall {A : Type} (P : A -> Prop) (l : list A) (d : A) :
  P d -> Forall P l -> P (List.last l d).
Proof.
  intros Hd Hl. induction Hl as [|x l Hx Hl IH]; [exact Hd|].
  destruct l; [exact Hx | exact IH].
Qed.

(** X2. The provider suffix never contains a colon. *)
Theorem provider_suffix_no_colon (model : string) :
  str_contains ":" (provider_suffix model) = false.
Proof.
  unfold provider_suffix. destruct (str_contains ":" model); [|reflexivity].
  apply (last_Forall (fun piece => str_contains ":" piece = false));
    [reflexivity | apply split_on_pieces_clean].
Qed.

(** ** Clipped text *)

Lemma substring_all (s : string) (n : nat) :
  (String.length s <= n)%nat -> String.substring 0 n s = s.
Proof.
  revert n. induction s as [|c s IH]; intros n Hn.
  - now destruct n.
  - destruct n as [|n]; [simpl in Hn; lia|].
    cbn [String.substring]. rewrite IH; [reflexivity | simpl in Hn; lia].
Qed.

Lemma substring_head_length (s : string) (n : nat) :
  (n <= String.length s)%nat -> String.length (String.substring 0 n s) = n.
Proof.
  revert n. induction s as [|c s IH]; intros n Hn.
  - simpl in Hn. assert (n = 0%nat) as -> by lia. reflexivity.
  - destruct n as [|n]; [reflexivity|].
    cbn [String.substring String.length]. rewrite IH; [reflexivity | simpl in Hn; lia].
Qed.

Lemma substring_head_prefix (s : string) (n : nat) :
  String.prefix (String.substring 0 n s) s = true.
Proof.
  revert n. induction s as [|c s IH]; intros n.
  - now destruct n.
  - destruct n as [|n]; [reflexivity|].
    cbn [String.substring String.prefix].
    destruct (Ascii.ascii_dec c c); [apply IH | congruence].
Qed.

(** X3. The clipped form [f"{text[:n]}{'...' if len(text) > n else ''}"] of a
    string: a text of at most [n] characters is shown whole, with no
    ellipsis; a longer one is cut to its first [n] characters followed by
    ["..."]. *)
Theorem clipped_spec (s : string) (n : nat) :
  exists shown,
    clipped (VStr s) n = Return shown
    /\ ((String.length s <= n)%nat -> shown = s)
    /\ ((n < String.length s)%nat ->
        exists head, shown = head ++ "..."
                     /\ String.length head = n
                     /\ String.prefix head s = true).
Proof.
  unfold clipped. cbn [py_slice py_len py_bind].
  eexists. split; [reflexivity|]. split.
  - intros Hle. rewrite substring_all by exact Hle.
    destruct (Z.ltb_spec (Z.of_nat n) (Z.of_nat (String.length s))); [lia|].
    apply str_app_empty_r.
  - intros Hlt. exists (String.substring 0 n s).
    destruct (Z.ltb_spec (Z.of_nat n) (Z.of_nat (String.length s))); [|lia].
    split; [reflexivity|]. split.
    + apply substring_head_length. lia.
    + apply substring_head_prefix.
Qed.

(** ** More on the reasoning visibility resolver *)

Lemma existsb_Exists_iff {A : Type} (f : A -> bool) (l : list A) :
  existsb f l = true <-> Exists (fun x => f x = true) l.
Proof.
  induction l as [|x l IH]; simpl.
  - split; [discriminate | intros H; inversion H].
  - rewrite orb_true_iff, IH. split.
    + intros [Hx | Hl]; [now left | now right].
    + intros H. inversion H; subst; [now left | now right].
Qed.

(** X4. Which level the resolver reports, for every response: [RAW] exactly
    when some reasoning item has content and no encrypted content; [SUMMARY]
    exactly when none has and some item has a summary; [ENCRYPTED] exactly
    when neither holds and some item has encrypted content. *)
Theorem analyze_level_iff (r : response) :
  let items := filter (fun it => is_reasoning it = true) (output r) in
  let has_raw := Exists (fun it => raw_content_test it = true) items in
  let has_summary :=
    Exists (fun it => truthy (getattr it "summary" VNone) = true) items in
  let has_encrypted :=
    Exists (fun it => truthy (getattr it "encrypted_content" VNone) = true) items in
  exists a,
    analyze_reasoning_visibility r = Return a
    /\ (level a = RAW <-> has_raw)
    /\ (level a = SUMMARY <-> ~ has_raw /\ has_summary)
    /\ (level a = ENCRYPTED <-> ~ has_raw /\ ~ has_summary /\ has_encrypted).
Proof.
  intros items has_raw has_summary has_encrypted.
  rewrite analyze_reasoning_visibility_unfold. cbv zeta. fold items.
  assert (Hraw : existsb raw_content_test items = true <-> has_raw)
    by apply existsb_Exists_iff.
  assert (Hsum : existsb (fun it => truthy (getattr it "summary" VNone)) items = true
                 <-> has_summary)
    by apply (existsb_Exists_iff (fun it => truthy (getattr it "summary" VNone))).
  assert (Henc : existsb (fun it => truthy (getattr it "encrypted_content" VNone))
                   items = true <-> has_encrypted)
    by apply (existsb_Exists_iff
                (fun it => truthy (getattr it "encrypted_content" VNone))).
  clearbody has_raw has_summary has_encrypted.
  destruct (bool_decide (items = [])) eqn:Hnil.
  - apply bool_decide_eq_true in Hnil. rewrite Hnil in *. simpl in *.
    eexists. split; [reflexivity|]. simpl.
    intuition congruence.
  - destruct (existsb raw_content_test items);
      destruct (existsb (fun it => truthy (getattr it "summary" VNone)) items);
      destruct (existsb (fun it => truthy (getattr it "encrypted_content" VNone)) items);
      eexists; (split; [reflexivity|]); simpl; intuition congruence.
Qed.

(** X5. A reasoning list that is not empty but in which no item has content,
    summary or encrypted content is reported as level [NONE] with the items
    handed back and the details ["Unknown reasoning format."], which tells it
    apart from a response without reasoning items. *)
Theorem analyze_unknown_format (r : response) (it0 : item) :
  it0 ∈ output r ->
  is_reasoning it0 = true ->
  (forall it, it ∈ output r -> is_reasoning it = true ->
     truthy (getattr it "content" VNone) = false
     /\ truthy (getattr it "summary" VNone) = false
     /\ truthy (getattr it "encrypted_content" VNone) = false) ->
  analyze_reasoning_visibility r =
    Return (Analysis NONE (filter (fun it => is_reasoning it = true) (output r)) 0
              "Unknown reasoning format.")
  /\ filter (fun it => is_reasoning it = true) (output r) <> [].
Proof.
  intros Hin Hr Hempty.
  pose proof (reasoning_items_nonempty r it0 Hin Hr) as Hne.
  split; [|now apply bool_decide_eq_false in Hne].
  rewrite analyze_reasoning_visibility_unfold. cbv zeta. rewrite Hne.
  rewrite !existsb_none; [reflexivity | | |];
    intros x Hx; apply reasoning_items_elem in Hx as [Hxr Hxin];
    destruct (Hempty x Hxin Hxr) as (Hc & Hs & He);
    unfold raw_content_test; now rewrite ?Hc, ?Hs, ?He.
Qed.

Lemma analyze_unknown_format_witness :
  analyze_reasoning_visibility
    (Response "r" "m" None [mk_item "reasoning" [("content", VStr "")]]) =
    Return (Analysis NONE
              (filter (fun it => is_reasoning it = true)
                      [mk_item "reasoning" [("content", VStr "")]]) 0
              "Unknown reasoning format.")
  /\ filter (fun it => is_reasoning it = true)
            [mk_item "reasoning" [("content", VStr "")]] <> [].
Proof.
  apply (analyze_unknown_format
           (Response "r" "m" None [mk_item "reasoning" [("content", VStr "")]])
           (mk_item "reasoning" [("content", VStr "")])).
  - apply list_elem_of_In. simpl. tauto.
  - reflexivity.
  - intros it Hin _. apply list_elem_of_In in Hin. simpl in Hin.
    destruct Hin as [<- | []]. repeat split; reflexivity.
Defined.

Lemma spec_token_estimate_bounds (items : list item) :
  (0 <= spec_token_estimate items
   /\ 4 * spec_token_estimate items
      <= Z.of_nat (sum_list (map (fun it => String.length (spec_item_text it)) items))
   /\ Z.of_nat (sum_list (map (fun it => String.length (spec_item_text it)) items))
      <= 4 * spec_token_estimate items + 3 * Z.of_nat (length items))%Z.
Proof.
  induction items as [|it rest IH]; simpl; [lia|].
  destruct IH as (H0 & Hlo & Hhi).
  set (n := Z.of_nat (String.length (spec_item_text it))).
  assert (Hn : (0 <= n)%Z) by (subst n; lia).
  pose proof (Z.div_mod n 4 ltac:(lia)) as Hdm.
  pose proof (Z.mod_pos_bound n 4 ltac:(lia)) as Hmod.
  assert (Hq : (0 <= n `div` 4)%Z) by (apply Z.div_pos; lia).
  rewrite Nat2Z.inj_add. fold n. lia.
Qed.

(** X6. The token estimate is never negative and never exceeds a quarter of
    the characters of the measured texts (the content of each reasoning item,
    or its summary when the content is empty); at levels [RAW] and [SUMMARY]
    it falls short of that quarter by less than one token per item, since
    each item is rounded down on its own. *)
Theorem token_estimate_bounds (r : response) :
  let items := filter (fun it => is_reasoning it = true) (output r) in
  let chars :=
    Z.of_nat (sum_list (map (fun it => String.length (spec_item_text it)) items)) in
  exists a,
    analyze_reasoning_visibility r = Return a
    /\ (0 <= total_reasoning_tokens a)%Z
    /\ (4 * total_reasoning_tokens a <= chars)%Z
    /\ (level a = RAW \/ level a = SUMMARY ->
        (chars <= 4 * total_reasoning_tokens a + 3 * Z.of_nat (length items))%Z).
Proof.
  intros items chars.
  destruct (spec_token_estimate_bounds items) as (H0 & Hlo & Hhi).
  fold chars in Hlo, Hhi.
  assert (Hc : (0 <= chars)%Z) by (subst chars; lia).
  rewrite analyze_reasoning_visibility_unfold. cbv zeta. fold items.
  repeat match goal with
         | |- context [if ?b then _ else _] => destruct b
         end;
    eexists; (split; [reflexivity|]); simpl;
    (repeat split; try lia; intros [Hl | Hl]; (discriminate Hl || lia)).
Qed.

(** Four items of three characters each: twelve characters, zero tokens. *)
Example token_estimate_rounds_per_item :
  analyze_reasoning_visibility
    (Response "r" "m" None
       [summary_item "abc"; summary_item "def"; summary_item "ghi"; summary_item "jkl"])
  = Return (Analysis SUMMARY
       [summary_item "abc"; summary_item "def"; summary_item "ghi"; summary_item "jkl"]
       0 "Summarized reasoning available. Raw traces are not exposed.").
Proof. vm_compute. reflexivity. Qed.

Lemma filter_reasoning_idem (items : list item) :
  filter (fun it => is_reasoning it = true)
         (filter (fun it => is_reasoning it = true) items)
  = filter (fun it => is_reasoning it = true) items.
Proof.
  induction items as [|it rest IH]; [reflexivity|].
  rewrite (filter_cons (fun it => is_reasoning it = true)).
  destruct (decide (is_reasoning it = true)) as [Hr|Hr]; [|exact IH].
  rewrite (filter_cons (fun it => is_reasoning it = true)).
  destruct (decide (is_reasoning it = true)); [|contradiction].
  now rewrite IH.
Qed.

Lemma analyze_returns_items (r : response) :
  exists a,
    analyze_reasoning_visibility r = Return a
    /\ reasoning_items a = filter (fun it => is_reasoning it = true) (output r).
Proof.
  rewrite analyze_reasoning_visibility_unfold. cbv zeta.
  destruct (bool_decide (filter (fun it => is_reasoning it = true) (output r) = []))
    eqn:Hnil.
  - apply bool_decide_eq_true in Hnil. rewrite Hnil.
    eexists. split; reflexivity.
  - repeat match goal with
           | |- context [if ?b then _ else _] => destruct b
           end; eexists; split; reflexivity.
Qed.

(** X7. The analysis depends on the reasoning items alone: the other output
    items, the identifiers and the usage do not change it, and analysing the
    reasoning items the function hands back gives the same analysis again. *)
Theorem analyze_reasoning_items_only (r : response) (id model : string)
  (u : option usage) :
  analyze_reasoning_visibility
    (Response id model u (filter (fun it => is_reasoning it = true) (output r)))
  = analyze_reasoning_visibility r
  /\ exists a,
       analyze_reasoning_visibility r = Return a
       /\ analyze_reasoning_visibility (Response id model u (reasoning_items a))
          = Return a.
Proof.
  assert (Hsame : analyze_reasoning_visibility
                    (Response id model u
                       (filter (fun it => is_reasoning it = true) (output r)))
                  = analyze_reasoning_visibility r).
  { rewrite !analyze_reasoning_visibility_unfold. cbv zeta. cbn [output].
    now rewrite filter_reasoning_idem. }
  split; [exact Hsame|].
  destruct (analyze_returns_items r) as (a & Ha & Hitems).
  exists a. split; [exact Ha|]. now rewrite Hitems, Hsame.
Qed.

(** ** More on [get_reasoning] *)

(** X8. The per-item classifier and the resolver agree: for every item, the
    level [get_reasoning] gives it is the level [analyze_reasoning_visibility]
    reports for a response holding that item alone. *)
Theorem get_reasoning_agrees_with_analysis (it : item) (id model : string)
  (u : option usage) :
  exists a,
    analyze_reasoning_visibility (Response id model u [it]) = Return a
    /\ level a = fst (get_reasoning it).
Proof.
  rewrite analyze_reasoning_visibility_unfold. cbv zeta. cbn [output].
  rewrite (filter_cons (fun it => is_reasoning it = true)).
  rewrite (filter_nil (fun it => is_reasoning it = true)).
  unfold get_reasoning. fold (is_reasoning it).
  destruct (decide (is_reasoning it = true)) as [Hr|Hr].
  - rewrite Hr. cbn [negb]. rewrite bool_decide_eq_false_2 by discriminate.
    cbn [existsb]. rewrite !orb_false_r. unfold raw_content_test.
    destruct (truthy (getattr it "content" VNone)
              && negb (truthy (getattr it "encrypted_content" VNone)));
      [eexists; split; reflexivity|].
    destruct (truthy (getattr it "summary" VNone));
      [eexists; split; reflexivity|].
    destruct (truthy (getattr it "encrypted_content" VNone));
      eexists; split; reflexivity.
  - apply not_true_is_false in Hr. rewrite Hr. cbn [negb].
    rewrite bool_decide_eq_true_2 by reflexivity.
    eexists; split; reflexivity.
Qed.

(** X9. The text [get_reasoning] returns goes with its level, whatever the
    fields hold: at [RAW] it is the content field, at [SUMMARY] the summary
    field, at [ENCRYPTED] the placeholder ["[encrypted]"], at [NONE] the empty
    string; so the text is false in Python's sense exactly when the level is
    [NONE]. *)
Theorem get_reasoning_text (it : item) :
  (fst (get_reasoning it) = RAW ->
     snd (get_reasoning it) = getattr it "content" VNone)
  /\ (fst (get_reasoning it) = SUMMARY ->
      snd (get_reasoning it) = getattr it "summary" VNone)
  /\ (fst (get_reasoning it) = ENCRYPTED ->
      snd (get_reasoning it) = VStr "[encrypted]")
  /\ (fst (get_reasoning it) = NONE -> snd (get_reasoning it) = VStr "")
  /\ (fst (get_reasoning it) = NONE <-> truthy (snd (get_reasoning it)) = false).
Proof.
  unfold get_reasoning.
  destruct (negb (py_eq_str (type_ it) "reasoning")).
  { cbn [fst snd]. repeat split; intros; try discriminate; reflexivity. }
  cbv zeta.
  destruct (truthy (getattr it "content" VNone)
            && negb (truthy (getattr it "encrypted_content" VNone))) eqn:Hraw.
  { apply andb_true_iff in Hraw as [Hc _]. cbn [fst snd].
    repeat split; intros; try discriminate; try reflexivity.
    rewrite Hc in *. discriminate. }
  destruct (truthy (getattr it "summary" VNone)) eqn:Hs.
  { cbn [fst snd]. repeat split; intros; try discriminate; try reflexivity.
    rewrite Hs in *. discriminate. }
  destruct (truthy (getattr it "encrypted_content" VNone)) eqn:He;
    cbn [fst snd]; repeat split; intros; try discriminate; reflexivity.
Qed.

(** X10. When a reasoning item has encrypted content, [get_reasoning] never
    hands out its content: it answers with the summary at level [SUMMARY] if
    there is one, and with the placeholder ["[encrypted]"] at level
    [ENCRYPTED] otherwise. *)
Theorem get_reasoning_keeps_encrypted (it : item) :
  is_reasoning it = true ->
  truthy (getattr it "encrypted_content" VNone) = true ->
  get_reasoning it =
    if truthy (getattr it "summary" VNone)
    then (SUMMARY, getattr it "summary" VNone)
    else (ENCRYPTED, VStr "[encrypted]").
Proof.
  intros Hr He. unfold get_reasoning. fold (is_reasoning it).
  rewrite Hr, He. cbn [negb andb]. rewrite andb_false_r. reflexivity.
Qed.

Lemma get_reasoning_keeps_encrypted_witness :
  get_reasoning
    (mk_item "reasoning"
       [("content", VStr "hidden"); ("encrypted_content", VStr "gAAAA")])
  = (ENCRYPTED, VStr "[encrypted]").
Proof.
  apply (get_reasoning_keeps_encrypted
           (mk_item "reasoning"
              [("content", VStr "hidden"); ("encrypted_content", VStr "gAAAA")]));
    reflexivity.
Defined.

(** ** More on [execute_tool] *)

(** X11. [execute_tool] raises in one situation only: the registered tool is
    called with arguments that are not a dictionary.  Every other call
    returns a string. *)
Theorem execute_tool_raises_iff (name : string) (arguments : pyarg) :
  (exists e, execute_tool name arguments = Raise e)
  <-> name = "example_tool" /\ exists v, arguments = ArgOther v.
Proof.
  unfold execute_tool.
  destruct (String.eqb_spec name "example_tool") as [->|Hne].
  - destruct arguments as [d | [|s]]; simpl; split.
    + intros [e He]. discriminate He.
    + intros [_ [v Hv]]. discriminate Hv.
    + intros _. eauto.
    + intros _. eauto.
    + intros _. eauto.
    + intros _. eauto.
  - split.
    + intros [e He]. discriminate He.
    + intros [Hname _]. contradiction.
Qed.

(** ** Steps that send nothing *)

Lemma silent_ret {A : Type} (a : A) : silent (io_ret a).
Proof. intros w. reflexivity. Qed.

Lemma silent_print (line : string) : silent (print line).
Proof. intros w. reflexivity. Qed.

Lemma silent_lift {A : Type} (m : pyresult A) : silent (io_lift m).
Proof. intros w. reflexivity. Qed.

Lemma silent_bind {A B : Type} (m : io A) (k : A -> io B) :
  silent m -> (forall a, silent (k a)) -> silent (io_bind m k).
Proof.
  intros Hm Hk w. unfold io_bind. specialize (Hm w).
  destruct (m w) as [[a|e] w']; simpl in Hm.
  - rewrite Hk. exact Hm.
  - exact Hm.
Qed.

Lemma quiet_silent {A : Type} (m : io A) : quiet m -> silent m.
Proof. intros Hq w. destruct (Hq w) as (a & out & ->). reflexivity. Qed.

Lemma silent_for_items {S : Type} (body : S -> item -> io S) (items : list item)
  (st : S) :
  (forall st' it, silent (body st' it)) -> silent (for_items body items st).
Proof.
  intros Hbody. revert st. induction items as [|it rest IH]; intros st; simpl.
  - apply silent_ret.
  - apply silent_bind; [apply Hbody | intros st'; apply IH].
Qed.

Lemma quiet_for_items {S : Type} (body : S -> item -> io S) (items : list item)
  (st : S) :
  (forall st' it, it ∈ items -> quiet (body st' it)) ->
  quiet (for_items body items st).
Proof.
  revert st. induction items as [|it rest IH]; intros st Hbody; simpl.
  - apply quiet_ret.
  - apply quiet_bind.
    + apply Hbody. left.
    + intros st'. apply IH. intros st'' it' Hin. apply Hbody. now right.
Qed.


Lemma for_each_print {A : Type} (f : A -> string) (lines : list A) (w : world) :
  for_each (fun line => print (f line)) lines w
  = (Return tt, World (stdout w ++ map f lines) (sent w)).
Proof.
  revert w. induction lines as [|line rest IH]; intros [out s].
  - simpl. unfold io_ret. now rewrite app_nil_r.
  - cbn [for_each]. rewrite io_bind_print, IH. cbn [stdout sent map].
    now rewrite <- app_assoc.
Qed.

Ltac silent_steps :=
  repeat first
    [ apply silent_ret
    | apply silent_print
    | apply silent_lift
    | apply silent_bind; [|intros ?] ].

(** ** reasoning_visibility.py: [display_reasoning] *)







(** X13. An item with a non-empty string as content is displayed as a raw
    trace whether or not it also has encrypted content (the resolver would
    not count it as raw then): after the step and type lines, the content is
    printed line by line, one print per piece of [content.split("\n")],
    each indented by two spaces.  No printed piece holds a newline, and the
    pieces joined by newlines are the content. *)
Theorem display_step_raw_trace `{sdk : SDK} (i : nat) (it : item) (c : string)
  (w : world) :
  getattr it "content" VNone = VStr c ->
  c <> "" ->
  reasoning_visibility.display_step i it w
  = (Return (S i),
     World (stdout w
            ++ [("[Step " ++ pretty (S i) ++ "]")%string; "Type: Raw Trace"; "Content:"]
            ++ map (fun line => ("  " ++ line)%string)
                 (split_on (Ascii.ascii_of_nat 10) c)
            ++ [""])%list
           (sent w))
  /\ String.concat nl (split_on (Ascii.ascii_of_nat 10) c) = c
  /\ Forall (fun line => str_contains nl line = false)
            (split_on (Ascii.ascii_of_nat 10) c).
Proof.
  intros Hc Hne.
  split; [|split; [apply split_on_join | apply split_on_pieces_clean]].
  unfold reasoning_visibility.display_step. cbv zeta. rewrite Hc.
  assert (Ht : truthy (VStr c) = true).
  { simpl. now destruct (String.eqb_spec c ""). }
  rewrite Ht. rewrite io_bind_print.
  match goal with
  | |- io_bind ?inner _ _ = _ =>
      assert (Hinner : forall w1,
                 inner w1
                 = (Return tt,
                    World (stdout w1 ++ ["Type: Raw Trace"; "Content:"]
                           ++ map (fun line => ("  " ++ line)%string)
                                (split_on (Ascii.ascii_of_nat 10) c))%list
                          (sent w1)))
  end.
  { intros w1. rewrite !io_bind_print. unfold io_bind, io_lift. cbn [py_split].
    rewrite for_each_print. cbn [stdout sent]. rewrite <- !app_assoc. reflexivity. }
  unfold io_bind at 1. rewrite Hinner. rewrite io_bind_print.
  unfold io_ret. cbn [stdout sent]. rewrite <- !app_assoc. reflexivity.
Qed.

Lemma display_step_raw_trace_witness :
  reasoning_visibility.display_step (sdk:=looping_model) 0
    (mk_item "reasoning"
       [("content", VStr ("plan" ++ nl ++ "act")); ("encrypted_content", VStr "gAAAA")])
    (World [] [])
  = (Return 1%nat,
     World ([] ++ [("[Step " ++ pretty 1%nat ++ "]")%string; "Type: Raw Trace"; "Content:"]
            ++ map (fun line => ("  " ++ line)%string)
                 (split_on (Ascii.ascii_of_nat 10) ("plan" ++ nl ++ "act"))
            ++ [""])%list
           [])
  /\ String.concat nl (split_on (Ascii.ascii_of_nat 10) ("plan" ++ nl ++ "act"))
     = ("plan" ++ nl ++ "act")
  /\ Forall (fun line => str_contains nl line = false)
            (split_on (Ascii.ascii_of_nat 10) ("plan" ++ nl ++ "act")).
Proof.
  apply (display_step_raw_trace (sdk:=looping_model) 0
           (mk_item "reasoning"
              [("content", VStr ("plan" ++ nl ++ "act"));
               ("encrypted_content", VStr "gAAAA")])
           ("plan" ++ nl ++ "act") (World [] [])).
  - vm_compute. reflexivity.
  - vm_compute. discriminate.
Defined.

(** The two lines of that content, each printed on its own. *)
Example display_step_two_lines :
  stdout (snd (reasoning_visibility.display_step (sdk:=looping_model) 0
                 (mk_item "reasoning"
                    [("content", VStr ("plan" ++ nl ++ "act"));
                     ("encrypted_content", VStr "gAAAA")])
                 (World [] [])))
  = ["[Step 1]"; "Type: Raw Trace"; "Content:"; "  plan"; "  act"; ""].
Proof. vm_compute. reflexivity. Qed.

(** ** Steps that return a known value *)

Lemma returns_ret {A : Type} (a : A) : returns (io_ret a) a.
Proof. intros [out s]. exists out. reflexivity. Qed.

Lemma returns_print (line : string) : returns (print line) tt.
Proof. intros w. exists (stdout w ++ [line])%list. reflexivity. Qed.

Lemma returns_lift {A : Type} (m : pyresult A) (a : A) :
  m = Return a -> returns (io_lift m) a.
Proof. intros -> [out s]. exists out. reflexivity. Qed.

Lemma returns_bind {A B : Type} (m : io A) (k : A -> io B) (a : A) (b : B) :
  returns m a -> returns (k a) b -> returns (io_bind m k) b.
Proof.
  intros Hm Hk w. destruct (Hm w) as (out & Em).
  destruct (Hk (World out (sent w))) as (out' & Ek).
  exists out'. unfold io_bind. rewrite Em. exact Ek.
Qed.

Lemma returns_quiet {A : Type} (m : io A) (a : A) : returns m a -> quiet m.
Proof. intros Hm w. destruct (Hm w) as (out & E). eauto. Qed.

Ltac returns_steps :=
  repeat first
    [ apply returns_ret
    | apply returns_print
    | apply returns_lift; eassumption
    | eapply returns_bind ].

(** ** Items without a string in [type] *)

Lemma typed_items_dec (items : list item) :
  typed_items items \/ ~ typed_items items.
Proof.
  unfold typed_items. induction items as [|it rest IH].
  - left. constructor.
  - destruct (type_ it) as [|t] eqn:Hty.
    + right. intros H. inversion H as [|? ? [t Ht] _]; subst. congruence.
    + destruct IH as [IH | IH].
      * left. constructor; eauto.
      * right. intros H. inversion H; subst. contradiction.
Qed.

(** A loop whose body returns on items with a string type and raises, before
    printing, on the others stops at the first such item. *)
Lemma for_items_untyped {S : Type} (body : S -> item -> io S) (items : list item)
  (st : S) (w : world) :
  (forall st' it, (exists t, type_ it = VStr t) -> quiet (body st' it)) ->
  (forall st' it w', type_ it = VNone ->
     body st' it w' = (Raise (AttributeError "NoneType" "upper"), w')) ->
  ~ typed_items items ->
  exists out,
    for_items body items st w
    = (Raise (AttributeError "NoneType" "upper"), World out (sent w)).
Proof.
  intros Hok Hbad. revert st w.
  induction items as [|it rest IH]; intros st w Hun.
  - exfalso. apply Hun. constructor.
  - cbn [for_items]. unfold io_bind.
    destruct (type_ it) as [|t] eqn:Hty.
    + rewrite (Hbad st it w Hty). destruct w as [out s]. eauto.
    + destruct (Hok st it (ex_intro _ t Hty) w) as (st' & out & E). rewrite E.
      destruct (IH st' (World out (sent w))) as (out' & E').
      * intros Hrest. apply Hun. constructor; eauto.
      * eauto.
Qed.

Lemma template_display_item_untyped `{sdk : SDK} (count : nat) (it : item)
  (w : world) :
  type_ it = VNone ->
  agent_template.display_item count it w
  = (Raise (AttributeError "NoneType" "upper"), w).
Proof.
  intros Hty. unfold agent_template.display_item. rewrite Hty. reflexivity.
Qed.

Lemma basic_display_item_quiet `{sdk : SDK} (u : unit) (it : item) :
  (exists t, type_ it = VStr t) -> quiet (basic_agent.display_item u it).
Proof.
  intros [t Hty]. unfold basic_agent.display_item.
  repeat match goal with
         | |- quiet (if ?b then _ else _) => destruct b
         end; quiet_steps.
  rewrite Hty. simpl. eauto.
Qed.

Lemma basic_display_item_untyped `{sdk : SDK} (u : unit) (it : item) (w : world) :
  type_ it = VNone ->
  basic_agent.display_item u it w
  = (Raise (AttributeError "NoneType" "upper"), w).
Proof.
  intros Hty. unfold basic_agent.display_item. rewrite Hty. reflexivity.
Qed.

Lemma basic_display_response_quiet `{sdk : SDK} (r : response) :
  typed_items (output r) -> quiet (basic_agent.display_response r).
Proof.
  intros Hty. unfold basic_agent.display_response.
  repeat (apply quiet_bind; [apply quiet_print | intros ?]).
  apply quiet_for_items. intros st it Hin.
  apply basic_display_item_quiet.
  unfold typed_items in Hty. rewrite Forall_forall in Hty. now apply Hty.
Qed.

Lemma template_display_response_untyped `{sdk : SDK} (r : response) (w : world) :
  ~ typed_items (output r) ->
  exists out, agent_template.display_response r w
              = (Raise (AttributeError "NoneType" "upper"), World out (sent w)).
Proof.
  intros Hun. unfold agent_template.display_response. rewrite !io_bind_print.
  unfold io_bind at 1.
  match goal with
  | |- context [for_items _ _ _ ?w1] =>
      destruct (for_items_untyped agent_template.display_item (output r) 0%nat w1
                  (fun st it H => display_item_quiet st it H)
                  (fun st it w' H => template_display_item_untyped st it w' H)
                  Hun) as (out & E)
  end.
  rewrite E. eauto.
Qed.

Lemma basic_display_response_untyped `{sdk : SDK} (r : response) (w : world) :
  ~ typed_items (output r) ->
  exists out, basic_agent.display_response r w
              = (Raise (AttributeError "NoneType" "upper"), World out (sent w)).
Proof.
  intros Hun. unfold basic_agent.display_response. rewrite !io_bind_print.
  match goal with
  | |- context [for_items _ _ _ ?w1] =>
      destruct (for_items_untyped basic_agent.display_item (output r) tt w1
                  (fun st it H => basic_display_item_quiet st it H)
                  (fun st it w' H => basic_display_item_untyped st it w' H)
                  Hun) as (out & E)
  end.
  rewrite E. eauto.
Qed.

(** X14. Both [display_response] functions return when every output item
    carries a string in [type]; when some item does not, the catch-all branch
    raises [AttributeError] for the missing [upper].  Neither sends
    anything. *)
Theorem display_response_returns_iff_typed `{sdk : SDK} (r : response) (w : world) :
  (typed_items (output r) ->
     (exists out, agent_template.display_response r w = (Return tt, World out (sent w)))
     /\ (exists out, basic_agent.display_response r w = (Return tt, World out (sent w))))
  /\ (~ typed_items (output r) ->
     (exists out, agent_template.display_response r w
                  = (Raise (AttributeError "NoneType" "upper"), World out (sent w)))
     /\ (exists out, basic_agent.display_response r w
                     = (Raise (AttributeError "NoneType" "upper"), World out (sent w)))).
Proof.
  split.
  - intros Hty. split.
    + destruct (display_response_quiet r Hty w) as ([] & out & E). eauto.
    + destruct (basic_display_response_quiet r Hty w) as ([] & out & E). eauto.
  - intros Hun. split.
    + now apply template_display_response_untyped.
    + now apply basic_display_response_untyped.
Qed.

(** ** sub_agent_loop.py: the execution trace *)

Lemma count_function_calls_cons (it : item) (rest : list item) :
  count_function_calls (it :: rest)
  = ((if py_eq_str (type_ it) "function_call" then 1 else 0)
     + count_function_calls rest)%nat.
Proof.
  unfold count_function_calls.
  rewrite (filter_cons (fun it => py_eq_str (type_ it) "function_call" = true)).
  destruct (decide (py_eq_str (type_ it) "function_call" = true)) as [E|E].
  - rewrite E. reflexivity.
  - apply not_true_is_false in E. rewrite E. reflexivity.
Qed.

Lemma trace_item_returns `{sdk : SDK} (total i count : nat) (it : item) :
  (exists t, type_ it = VStr t) ->
  returns (sub_agent_loop.trace_item total (i, count) it)
          (S i, ((if py_eq_str (type_ it) "function_call" then 1 else 0) + count)%nat).
Proof.
  intros [t Hty]. unfold sub_agent_loop.trace_item. cbv zeta. cbn [fst snd].
  destruct (py_eq_str (type_ it) "reasoning") eqn:Er.
  { assert (Ec : py_eq_str (type_ it) "function_call" = false).
    { rewrite Hty in *. simpl in *. apply String.eqb_eq in Er. now subst t. }
    rewrite Ec.
    destruct (clipped_or_returns
                (py_or (getattr it "summary" VNone) (getattr it "content" VNone))
                "[encrypted reasoning]" 200) as [shown Hshown].
    returns_steps. }
  destruct (py_eq_str (type_ it) "function_call") eqn:Ec.
  { returns_steps. }
  destruct (py_eq_str (type_ it) "function_call_output") eqn:Eo.
  { destruct (clipped_or_returns (getattr it "output" (VStr "")) "" 200)
      as [shown Hshown].
    returns_steps. }
  destruct (py_eq_str (type_ it) "message") eqn:Em.
  { returns_steps. }
  assert (Hup : py_upper (type_ it) = Return (str_upper t)) by now rewrite Hty.
  returns_steps.
Qed.

Lemma trace_item_untyped `{sdk : SDK} (total : nat) (st : nat * nat) (it : item)
  (w : world) :
  type_ it = VNone ->
  sub_agent_loop.trace_item total st it w
  = (Raise (AttributeError "NoneType" "upper"), w).
Proof.
  intros Hty. unfold sub_agent_loop.trace_item. rewrite Hty. reflexivity.
Qed.

Lemma trace_loop_returns `{sdk : SDK} (total : nat) (items : list item)
  (i count : nat) :
  typed_items items ->
  returns (for_items (sub_agent_loop.trace_item total) items (i, count))
          ((i + length items)%nat, (count + count_function_calls items)%nat).
Proof.
  intros Hty. revert i count.
  induction Hty as [|it rest Hit _ IH]; intros i count.
  - cbn [for_items length]. unfold count_function_calls. simpl.
    rewrite !Nat.add_0_r. apply returns_ret.
  - cbn [for_items]. eapply returns_bind; [now apply trace_item_returns|].
    rewrite count_function_calls_cons. cbn [length].
    replace (i + S (length rest))%nat with (S i + length rest)%nat by lia.
    replace (count + ((if py_eq_str (type_ it) "function_call" then 1 else 0)
                      + count_function_calls rest))%nat
      with ((if py_eq_str (type_ it) "function_call" then 1 else 0) + count
            + count_function_calls rest)%nat by lia.
    apply IH.
Qed.

Lemma trace_summary `{sdk : SDK} (r : response) (w : world) :
  typed_items (output r) ->
  exists pre,
    sub_agent_loop.display_execution_trace r w
    = (Return tt,
       World (pre ++ [ str_repeat "=" 60;
                       ("SUMMARY: " ++ pretty (count_function_calls (output r))
                        ++ " tool calls made")%string;
                       str_repeat "=" 60;
                       (nl ++ "--- Final Output Text ---")%string;
                       output_text r ])%list
             (sent w)).
Proof.
  intros Hty. unfold sub_agent_loop.display_execution_trace.
  rewrite !io_bind_print. unfold io_bind at 1.
  match goal with
  | |- context [for_items _ _ _ ?w1] =>
      destruct (trace_loop_returns (length (output r)) (output r) 0 0 Hty w1)
        as (out & E)
  end.
  rewrite E. rewrite !io_bind_print. cbn [snd stdout sent Nat.add].
  exists out. unfold print. cbn [stdout sent].
  rewrite <- !app_assoc. reflexivity.
Qed.

Lemma trace_quiet `{sdk : SDK} (r : response) :
  typed_items (output r) -> quiet (sub_agent_loop.display_execution_trace r).
Proof. intros Hty w. destruct (trace_summary r w Hty) as (pre & E). eauto. Qed.

Lemma trace_untyped `{sdk : SDK} (r : response) (w : world) :
  ~ typed_items (output r) ->
  exists out,
    sub_agent_loop.display_execution_trace r w
    = (Raise (AttributeError "NoneType" "upper"), World out (sent w)).
Proof.
  intros Hun. unfold sub_agent_loop.display_execution_trace.
  rewrite !io_bind_print. unfold io_bind at 1.
  match goal with
  | |- context [for_items _ _ _ ?w1] =>
      destruct (for_items_untyped
                  (sub_agent_loop.trace_item (length (output r))) (output r)
                  (0%nat, 0%nat) w1
                  (fun st it H =>
                     returns_quiet _ _
                       (eq_rect _ (fun p => returns (sub_agent_loop.trace_item
                                                       (length (output r)) p it) _)
                          (trace_item_returns (length (output r)) (fst st) (snd st) it H)
                          st (eq_sym (surjective_pairing st))))
                  (fun st it w' H => trace_item_untyped _ st it w' H)
                  Hun) as (out & E)
  end.
  rewrite E. eauto.
Qed.

(** X15. For a response whose items all carry a string in [type],
    [display_execution_trace] returns, sends nothing, and closes its output
    with the summary, in which the number of tool calls is the number of
    [function_call] items of the output; when some item has no string type it
    raises [AttributeError]. *)
Theorem display_execution_trace_summary `{sdk : SDK} (r : response) (w : world) :
  (typed_items (output r) ->
     exists pre,
       sub_agent_loop.display_execution_trace r w
       = (Return tt,
          World (pre ++ [ str_repeat "=" 60;
                          ("SUMMARY: " ++ pretty (count_function_calls (output r))
                           ++ " tool calls made")%string;
                          str_repeat "=" 60;
                          (nl ++ "--- Final Output Text ---")%string;
                          output_text r ])%list
                (sent w)))
  /\ (~ typed_items (output r) ->
      exists out,
        sub_agent_loop.display_execution_trace r w
        = (Raise (AttributeError "NoneType" "upper"), World out (sent w))).
Proof.
  split; [apply trace_summary | apply trace_untyped].
Qed.

(** ** agent_template.py: the request and the run *)

(** X16. The request [create_agent] builds always carries non-empty
    instructions ([None] and the empty string are replaced by the default),
    and its tool fields go together: either a non-empty tool list with
    [tool_choice] ["auto"], or, for [None] and for the empty list alike,
    neither field. *)
Theorem request_params_invariant (CONFIG : agent_template.config)
  (task : string) (instructions : pyval) (tools : option (list tool_decl))
  (effort : string) :
  let req := agent_template.request_params CONFIG task instructions tools effort in
  truthy (req_instructions req) = true
  /\ req_input req = task
  /\ req_reasoning_effort req = Some effort
  /\ ((exists t ts, tools = Some (t :: ts)
                    /\ req_tools req = Some (t :: ts)
                    /\ req_tool_choice req = Some "auto")
      \/ ((tools = None \/ tools = Some [])
          /\ req_tools req = None /\ req_tool_choice req = None)).
Proof.
  cbv zeta. unfold agent_template.request_params. cbn [req_instructions req_input
    req_reasoning_effort req_tools req_tool_choice].
  split; [|split; [reflexivity|split; [reflexivity|]]].
  - unfold py_or. destruct (truthy instructions) eqn:Hi; [exact Hi | reflexivity].
  - destruct tools as [[|t ts]|].
    + right. auto.
    + left. exists t, ts. auto.
    + right. auto.
Qed.

Lemma template_display_item_silent `{sdk : SDK} (count : nat) (it : item) :
  silent (agent_template.display_item count it).
Proof.
  unfold agent_template.display_item.
  apply silent_bind; [|intros ?; silent_steps].
  repeat match goal with
         | |- silent (if ?b then _ else _) => destruct b
         end; silent_steps.
Qed.

Lemma template_display_response_silent `{sdk : SDK} (r : response) :
  silent (agent_template.display_response r).
Proof.
  unfold agent_template.display_response.
  repeat (apply silent_bind; [try apply silent_print | intros ?]);
    try apply silent_print.
  apply silent_for_items. intros st it. apply template_display_item_silent.
Qed.

(** X17. Whatever the remote side answers, a response, a response that cannot
    be displayed, or an exception, [run_agent] sends exactly one request: the
    task as input, the configured model and reasoning effort, and the
    template's tools with [tool_choice] ["auto"] when [use_tools] is set, no
    tool fields otherwise. *)
Theorem run_agent_sends_one_request `{sdk : SDK} (CONFIG : agent_template.config)
  (task : string) (use_tools : bool) (w : world) :
  sent (snd (agent_template.run_agent CONFIG task use_tools w))
  = (sent w ++
     [ {| req_model := agent_template.cfg_model CONFIG;
          req_instructions :=
            VStr "You are a helpful assistant that completes tasks step by step.";
          req_input := task;
          req_reasoning_effort := Some (agent_template.cfg_reasoning_effort CONFIG);
          req_tools := if use_tools then Some agent_template.TOOLS else None;
          req_tool_choice := if use_tools then Some "auto" else None |} ])%list.
Proof.
  unfold agent_template.run_agent. rewrite !io_bind_print.
  unfold io_bind at 1. rewrite create_agent_once. cbv zeta. cbn [sent stdout].
  assert (Hreq : agent_template.request_params CONFIG task VNone
                   (if use_tools then Some agent_template.TOOLS else None)
                   (agent_template.cfg_reasoning_effort CONFIG)
                 = {| req_model := agent_template.cfg_model CONFIG;
                      req_instructions :=
                        VStr "You are a helpful assistant that completes tasks step by step.";
                      req_input := task;
                      req_reasoning_effort :=
                        Some (agent_template.cfg_reasoning_effort CONFIG);
                      req_tools := if use_tools then Some agent_template.TOOLS else None;
                      req_tool_choice := if use_tools then Some "auto" else None |})
    by now destruct use_tools.
  rewrite Hreq.
  match goal with
  | |- context [responses_create ?n ?q] => destruct (responses_create n q) as [r|e]
  end; [|reflexivity].
  rewrite (silent_bind (agent_template.display_response r) (fun _ => io_ret r)
             (template_display_response_silent r) (fun _ => silent_ret r)).
  reflexivity.
Qed.

(** X18. When the request fails, the exception leaves [run_agent] as it came:
    nothing is printed after the ten lines of the header, and no response is
    displayed. *)
Theorem run_agent_transport_error `{sdk : SDK} (CONFIG : agent_template.config)
  (task : string) (use_tools : bool) (w : world) (e : pyexn) :
  responses_create (length (sent w))
    (agent_template.request_params CONFIG task VNone
       (if use_tools then Some agent_template.TOOLS else None)
       (agent_template.cfg_reasoning_effort CONFIG)) = Raise e ->
  fst (agent_template.run_agent CONFIG task use_tools w) = Raise e
  /\ length (stdout (snd (agent_template.run_agent CONFIG task use_tools w)))
     = (length (stdout w) + 10)%nat.
Proof.
  intros Hfail.
  assert (E : exists out s,
             agent_template.run_agent CONFIG task use_tools w
             = (Raise e, World out s)
             /\ length out = (length (stdout w) + 10)%nat).
  { unfold agent_template.run_agent. rewrite !io_bind_print.
    unfold io_bind at 1. rewrite create_agent_once. cbv zeta. cbn [sent stdout].
    rewrite Hfail. eexists _, _. split; [reflexivity|].
    rewrite !length_app. cbn [length]. lia. }
  destruct E as (out & s & -> & Hlen). split; [reflexivity | exact Hlen].
Qed.

Lemma run_agent_transport_error_witness :
  fst (agent_template.run_agent (sdk:=flaky_model) sample_config "task" false
         (World [] []))
  = Raise (TransportError 503 "upstream unavailable")
  /\ length (stdout (snd (agent_template.run_agent (sdk:=flaky_model) sample_config
                            "task" false (World [] []))))
     = (length (A:=string) [] + 10)%nat.
Proof.
  apply (run_agent_transport_error (sdk:=flaky_model) sample_config "task" false
           (World [] []) (TransportError 503 "upstream unavailable")).
  reflexivity.
Defined.

(** ** multi_provider.py: [compare_providers] *)

Lemma returns_for_each {A : Type} (body : A -> io unit) (xs : list A) :
  (forall x, returns (body x) tt) -> returns (for_each body xs) tt.
Proof.
  intros Hbody. induction xs as [|x rest IH]; cbn [for_each].
  - apply returns_ret.
  - eapply returns_bind; [apply Hbody | exact IH].
Qed.

Lemma plain_create_once `{sdk : SDK} (model input_text : string)
  (instructions : pyval) (w : world) :
  (do response <- create (plain_request model input_text instructions);
   io_ret response) w
  = (responses_create (length (sent w)) (plain_request model input_text instructions),
     World (stdout w) (sent w ++ [plain_request model input_text instructions])).
Proof.
  unfold io_bind, create.
  now destruct (responses_create (length (sent w))
                  (plain_request model input_text instructions)).
Qed.

(** What is left of the [try] block once the response is there: it returns
    the entry of a success. *)
Lemma try_provider_rest `{sdk : SDK} (model : string) (r : response) (d : Z) :
  returns
    (do_ print ("Response received in " ++ pretty d ++ "ms");
     do_ print (tokens_line r);
     do_ (if bool_decide (filter (fun it => is_reasoning it = true) (output r) = [])
          then io_ret tt
          else
            do_ print (nl ++ "Reasoning ("
                       ++ pretty (length (filter (fun it => is_reasoning it = true)
                                            (output r)))
                       ++ " items):");
            for_each
              (fun it =>
                 do text <- io_lift (clipped (reasoning_text it "[no content]") 150);
                 print ("  - " ++ text))
              (filter (fun it => is_reasoning it = true) (output r)));
     do_ print (nl ++ "Response:");
     do text <- io_lift (clipped (py_or (VStr (output_text r)) (VStr "")) 300);
     do_ print ("  " ++ text);
     io_ret (Succeeded model r d))
    (Succeeded model r d).
Proof.
  destruct (clipped_or_returns (VStr (output_text r)) "" 300) as [shown Hshown].
  eapply returns_bind; [apply returns_print|].
  eapply returns_bind; [apply returns_print|].
  eapply returns_bind.
  - instantiate (1 := tt).
    destruct (bool_decide _); [apply returns_ret|].
    eapply returns_bind; [apply returns_print|].
    apply returns_for_each. intros it.
    destruct (clipped_or_returns
                (py_or (getattr it "content" VNone) (getattr it "summary" VNone))
                "[no content]" 150) as [text Htext].
    unfold reasoning_text. returns_steps.
  - returns_steps.
Qed.

Lemma try_provider_spec `{sdk : SDK} `{clock : Clock} (prompt model : string)
  (w : world) :
  exists out,
    io_catch (multi_provider.try_provider prompt model)
      (fun e => do_ print ("Error: " ++ exn_str e);
                io_ret (Errored model (exn_str e))) w
    = (Return (provider_outcome prompt (length (sent w)) model),
       World out (sent w ++ [plain_request model prompt VNone])).
Proof.
  unfold io_catch, multi_provider.try_provider, provider_outcome.
  rewrite io_bind_print. unfold io_bind at 1.
  unfold multi_provider.create_agent. rewrite plain_create_once. cbn [sent stdout].
  destruct (responses_create (length (sent w)) (plain_request model prompt VNone))
    as [r|e].
  - unfold io_bind at 1. cbn [sent].
    match goal with
    | |- context [elapsed_ms ?n] =>
        replace n with (S (length (sent w))) by (rewrite length_app; simpl; lia)
    end.
    match goal with
    | |- context [?rest ?w1] =>
        match w1 with
        | World _ _ =>
            destruct (try_provider_rest model r (elapsed_ms (S (length (sent w)))) w1)
              as (out & E)
        end
    end.
    rewrite E. eauto.
  - rewrite io_bind_print. unfold io_ret. eauto.
Qed.

Lemma collect_results_spec `{sdk : SDK} `{clock : Clock} (prompt : string)
  (models : list string) (results : list provider_result) (w : world) :
  exists out,
    multi_provider.collect_results prompt models results w
    = (Return (results
               ++ imap (fun i model =>
                          provider_outcome prompt (length (sent w) + i) model) models)%list,
       World out (sent w ++ map (fun model => plain_request model prompt VNone) models)).
Proof.
  revert results w. induction models as [|model rest IH]; intros results w.
  - cbn [multi_provider.collect_results imap map]. rewrite !app_nil_r.
    destruct w as [out s]. exists out. reflexivity.
  - cbn [multi_provider.collect_results]. cbv zeta. rewrite io_bind_print.
    unfold io_bind at 1.
    match goal with
    | |- context [io_catch _ _ ?w1] =>
        destruct (try_provider_spec prompt model w1) as (out1 & E)
    end.
    rewrite E. cbn [sent].
    destruct (IH (results ++ [provider_outcome prompt (length (sent w)) model])%list
                (World out1 (sent w ++ [plain_request model prompt VNone])))
      as (out & E').
    rewrite E'. exists out. cbn [sent map]. f_equal.
    + f_equal. rewrite <- app_assoc. f_equal. cbn [app].
      rewrite imap_cons. rewrite Nat.add_0_r. f_equal.
      apply imap_ext. intros i m _. cbn. f_equal.
      rewrite length_app. simpl. lia.
    + f_equal. rewrite <- app_assoc. reflexivity.
Qed.

(** X19. [compare_providers] never raises, whatever the providers do.  It
    sends one request per model, in the order of the list, each with the
    prompt and the default instructions; a model whose request fails is
    recorded with the error text and the comparison goes on.  The output ends
    with one summary line per model, in order, each telling the outcome of
    that model's own request. *)
Theorem compare_providers_isolates_failures `{sdk : SDK} `{clock : Clock}
  (prompt : string) (models : list string) (w : world) :
  exists pre,
    multi_provider.compare_providers prompt models w
    = (Return tt,
       World (pre ++ map multi_provider.summary_line
                       (imap (fun i model =>
                                provider_outcome prompt (length (sent w) + i) model)
                             models))
             (sent w ++ map (fun model => plain_request model prompt VNone) models)).
Proof.
  unfold multi_provider.compare_providers. rewrite !io_bind_print.
  unfold io_bind at 1.
  match goal with
  | |- context [multi_provider.collect_results _ _ _ ?w1] =>
      destruct (collect_results_spec prompt models [] w1) as (out & E)
  end.
  rewrite E. cbn [sent app]. rewrite !io_bind_print.
  rewrite for_each_print. cbn [stdout sent]. eauto.
Qed.

(** With a provider that fails on every other request. *)
Example compare_providers_flaky :
  sent (snd (multi_provider.compare_providers (sdk:=flaky_model) (clock:=fixed_clock)
               "hi" ["a/b:groq"; "c/d:together"; "plain"] (World [] [])))
  = [plain_request "a/b:groq" "hi" VNone; plain_request "c/d:together" "hi" VNone;
     plain_request "plain" "hi" VNone]
  /\ drop 26 (stdout (snd (multi_provider.compare_providers (sdk:=flaky_model)
                             (clock:=fixed_clock) "hi"
                             ["a/b:groq"; "c/d:together"; "plain"] (World [] []))))
     = [ "groq         | FAILED  | upstream unavailable";
         "together     | SUCCESS | 200ms | 0 tokens";
         "default      | FAILED  | upstream unavailable" ].
Proof. split; vm_compute; reflexivity. Qed.

(** ** The scripts' entry points *)

Lemma create_once `{sdk : SDK} (req : request) (w : world) :
  (do response <- create req; io_ret response) w
  = (responses_create (length (sent w)) req, World (stdout w) (sent w ++ [req])).
Proof.
  unfold io_bind, create. now destruct (responses_create (length (sent w)) req).
Qed.

(** How [try: body  except Exception as e: print(...); exit(1)] ends, from
    how the body ends. *)
Lemma io_try_outcome (body : io unit) (w w' : world) (res : pyresult unit) :
  body w = (res, w') ->
  exists status out,
    io_try body report_and_exit w = (Return status, World out (sent w'))
    /\ (status = Finished <-> exists u, res = Return u)
    /\ (status = Finished \/ status = Exited 1).
Proof.
  intros Hbody. unfold io_try, io_catch, io_bind. rewrite Hbody.
  destruct res as [u|e].
  - destruct w' as [out s]. exists Finished, out. unfold io_ret.
    repeat split; eauto.
  - unfold report_and_exit. rewrite io_bind_print. unfold io_ret.
    exists (Exited 1), (stdout w' ++ [("Error: " ++ exn_str e)%string])%list.
    split; [reflexivity|]. split; [|now right].
    split; [discriminate | intros [u Hu]; discriminate Hu].
Qed.

(** A body that fetches a response and then displays it, with a display that
    returns exactly on typed items. *)
Lemma fetch_then_display (fetch : io response) (display : response -> io unit)
  (w w1 : world) (res : pyresult response) :
  fetch w = (res, w1) ->
  (forall r, typed_items (output r) -> quiet (display r)) ->
  (forall r w', ~ typed_items (output r) ->
     exists out e, display r w' = (Raise e, World out (sent w'))) ->
  exists res' out,
    (do r <- fetch; display r) w = (res', World out (sent w1))
    /\ ((exists u, res' = Return u)
        <-> exists r, res = Return r /\ typed_items (output r)).
Proof.
  intros Hfetch Hok Hbad. unfold io_bind. rewrite Hfetch.
  destruct res as [r|e].
  - destruct (typed_items_dec (output r)) as [Hty | Hun].
    + destruct (Hok r Hty w1) as (u & out & E). rewrite E.
      exists (Return u), out. split; [reflexivity|]. split; eauto.
    + destruct (Hbad r w1 Hun) as (out & e & E). rewrite E.
      exists (Raise e), out. split; [reflexivity|]. split.
      * intros [u Hu]. discriminate Hu.
      * intros (r' & Hr' & Hty). injection Hr' as <-. contradiction.
  - destruct w1 as [out s]. exists (Raise e), out. split; [reflexivity|]. split.
    + intros [u Hu]. discriminate Hu.
    + intros (r & Hr & _). discriminate Hr.
Qed.

Lemma missing_token_spec (w : world) :
  missing_token w
  = (Return (Exited 1),
     World (stdout w ++ ["Error: HF_TOKEN environment variable required"]) (sent w)).
Proof. reflexivity. Qed.

(** X20. [basic_agent.py]'s [main]: without a token (unset or empty) it
    prints the error, sends nothing and exits with status 1.  With a token it
    sends exactly one request, and it finishes normally exactly when the
    request returns a response whose items all carry a string type; a failed
    request or a response that cannot be displayed ends in exit status 1.  No
    exception leaves [main]. *)
Theorem basic_agent_main_outcome `{sdk : SDK} (environ : gmap string string)
  (w : world) :
  let token := environ_truthy (environ !! "HF_TOKEN") in
  let req :=
    plain_request (environ_get environ "MODEL" default_model)
      "Explain the difference between TCP and UDP in simple terms." VNone in
  exists status out,
    basic_agent_main environ w
    = (Return status, World out (sent w ++ (if token then [req] else [])))
    /\ (status = Finished
        <-> token = true
            /\ exists r, responses_create (length (sent w)) req = Return r
                         /\ typed_items (output r))
    /\ (status = Finished \/ status = Exited 1).
Proof.
  intros token req. unfold basic_agent_main. cbv zeta. fold token.
  destruct token; cbn [negb].
  - rewrite !io_bind_print.
    match goal with
    | |- context [io_try ?body _ ?w1] =>
        destruct (fetch_then_display
                    (create_basic_agent (environ_get environ "MODEL" default_model)
                       "Explain the difference between TCP and UDP in simple terms."
                       VNone)
                    basic_agent.display_response w1 _ _
                    (create_once req w1)
                    (fun r H => basic_display_response_quiet r H)
                    (fun r w' H =>
                       match basic_display_response_untyped r w' H with
                       | ex_intro _ out E => ex_intro _ out (ex_intro _ _ E)
                       end))
          as (res' & out1 & Hbody & Hiff);
        destruct (io_try_outcome body w1 _ res' Hbody)
          as (status & out & E & Hfin & Hcases)
    end.
    exists status, out. cbn [sent] in *. split; [exact E|]. split; [|exact Hcases].
    rewrite Hfin, Hiff. cbn [sent stdout]. intuition.
  - rewrite missing_token_spec. eexists _, _. rewrite app_nil_r.
    split; [reflexivity|]. split; [|now right].
    split; [discriminate | intros [Ht _]; discriminate Ht].
Qed.

Lemma create_agent_with_tools_once `{sdk : SDK} (model input_text : string)
  (instructions : pyval) (w : world) :
  exists out,
    sub_agent_loop.create_agent_with_tools model input_text instructions w
    = (responses_create (length (sent w))
         (sub_agent_loop.tools_request model input_text instructions),
       World out
         (sent w ++ [sub_agent_loop.tools_request model input_text instructions])).
Proof.
  unfold sub_agent_loop.create_agent_with_tools. rewrite !io_bind_print.
  rewrite create_once. cbn [sent stdout]. eauto.
Qed.

(** X21. [sub_agent_loop.py]'s [main]: without a token it prints the error,
    sends nothing and exits with status 1.  With a token it sends exactly one
    request, which declares the four tools with [tool_choice] ["auto"], and
    it finishes normally exactly when the request returns a response whose
    items all carry a string type; otherwise it exits with status 1.  It
    never sends a second request, whatever function calls the response
    holds. *)
Theorem sub_agent_loop_main_outcome `{sdk : SDK} (environ : gmap string string)
  (w : world) :
  let token := environ_truthy (environ !! "HF_TOKEN") in
  let req :=
    sub_agent_loop.tools_request (environ_get environ "MODEL" default_model)
      sub_agent_loop.task VNone in
  exists status out,
    sub_agent_loop.main environ w
    = (Return status, World out (sent w ++ (if token then [req] else [])))
    /\ (status = Finished
        <-> token = true
            /\ exists r, responses_create (length (sent w)) req = Return r
                         /\ typed_items (output r))
    /\ (status = Finished \/ status = Exited 1)
    /\ req_tools req = Some sub_agent_loop.tools
    /\ req_tool_choice req = Some "auto".
Proof.
  intros token req. unfold sub_agent_loop.main. cbv zeta. fold token.
  destruct token; cbn [negb].
  - destruct (create_agent_with_tools_once
                (environ_get environ "MODEL" default_model) sub_agent_loop.task VNone w)
      as (out0 & Hfetch).
    destruct (fetch_then_display _ sub_agent_loop.display_execution_trace w _ _
                Hfetch
                (fun r H => trace_quiet r H)
                (fun r w' H =>
                   match trace_untyped r w' H with
                   | ex_intro _ out E => ex_intro _ out (ex_intro _ _ E)
                   end))
      as (res' & out1 & Hbody & Hiff).
    destruct (io_try_outcome _ w _ res' Hbody) as (status & out & E & Hfin & Hcases).
    exists status, out. cbn [sent] in *. split; [exact E|].
    split; [|split; [exact Hcases | split; reflexivity]].
    rewrite Hfin, Hiff. fold req. intuition.
  - rewrite missing_token_spec. eexists _, _. rewrite app_nil_r.
    split; [reflexivity|]. split; [|split; [now right | split; reflexivity]].
    split; [discriminate | intros [Ht _]; discriminate Ht].
Qed.

(** How [run_agent] ends, from what the transport answers. *)
Lemma run_agent_cases `{sdk : SDK} (CONFIG : agent_template.config)
  (task : string) (use_tools : bool) (w : world) :
  let req :=
    agent_template.request_params CONFIG task VNone
      (if use_tools then Some agent_template.TOOLS else None)
      (agent_template.cfg_reasoning_effort CONFIG) in
  exists res out,
    agent_template.run_agent CONFIG task use_tools w
    = (res, World out (sent w ++ [req]))
    /\ ((exists r, res = Return r)
        <-> exists r, responses_create (length (sent w)) req = Return r
                      /\ typed_items (output r)).
Proof.
  intros req. unfold agent_template.run_agent. rewrite !io_bind_print.
  unfold io_bind at 1. rewrite create_agent_once. cbv zeta. cbn [sent stdout].
  fold req. destruct (responses_create (length (sent w)) req) as [r|e].
  - unfold io_bind.
    destruct (typed_items_dec (output r)) as [Hty | Hun].
    + match goal with
      | |- context [agent_template.display_response r ?w1] =>
          destruct (display_response_quiet r Hty w1) as (u & out & E)
      end.
      rewrite E. unfold io_ret. cbn [sent]. eexists _, _. split; [reflexivity|].
      split; eauto.
    + match goal with
      | |- context [agent_template.display_response r ?w1] =>
          destruct (template_display_response_untyped r w1 Hun) as (out & E)
      end.
      rewrite E. cbn [sent]. eexists _, _. split; [reflexivity|]. split.
      * intros [r' Hr']. discriminate Hr'.
      * intros (r' & Hr' & Hty). injection Hr' as <-. contradiction.
  - eexists _, _. split; [reflexivity|]. split.
    + intros [r Hr]. discriminate Hr.
    + intros (r & Hr & _). discriminate Hr.
Qed.

(** X22. [agent_template.py]'s [main]: without an API key in the
    configuration (unset or empty) it prints the error, sends nothing and
    exits with status 1.  With a key it sends exactly one request, without
    tools, and finishes normally exactly when the request returns a response
    whose items all carry a string type; otherwise it exits with status 1. *)
Theorem agent_template_main_outcome `{sdk : SDK} (CONFIG : agent_template.config)
  (w : world) :
  let token := environ_truthy (agent_template.cfg_api_key CONFIG) in
  let req :=
    agent_template.request_params CONFIG template_task VNone None
      (agent_template.cfg_reasoning_effort CONFIG) in
  exists status out,
    agent_template_main CONFIG w
    = (Return status, World out (sent w ++ (if token then [req] else [])))
    /\ (status = Finished
        <-> token = true
            /\ exists r, responses_create (length (sent w)) req = Return r
                         /\ typed_items (output r))
    /\ (status = Finished \/ status = Exited 1)
    /\ req_tools req = None.
Proof.
  intros token req. unfold agent_template_main. fold token.
  destruct token; cbn [negb].
  - destruct (run_agent_cases CONFIG template_task false w)
      as (res & out0 & Hrun & Hiff).
    cbv zeta in Hiff. fold req in Hrun, Hiff.
    assert (Hbody : exists res',
               (do _ <- agent_template.run_agent CONFIG template_task false;
                io_ret tt) w = (res', World out0 (sent w ++ [req]))
               /\ ((exists u, res' = Return u) <-> exists r, res = Return r)).
    { unfold io_bind. rewrite Hrun. destruct res as [r|e].
      - eexists. split; [reflexivity|]. split; eauto.
      - eexists. split; [reflexivity|]. split; intros [x Hx]; discriminate Hx. }
    destruct Hbody as (res' & Hbody & Hiff').
    destruct (io_try_outcome _ w _ res' Hbody) as (status & out & E & Hfin & Hcases).
    exists status, out. cbn [sent] in *. split; [exact E|].
    split; [|split; [exact Hcases | reflexivity]].
    rewrite Hfin, Hiff', Hiff. intuition.
  - rewrite missing_token_spec. eexists _, _. rewrite app_nil_r.
    split; [reflexivity|]. split; [|split; [now right | reflexivity]].
    split; [discriminate | intros [Ht _]; discriminate Ht].
Qed.

(** ** reasoning_visibility.py: the demonstration *)






(** An item without a string type stops the template's display but not the
    demonstration's. *)
Example demonstrate_tolerates_untyped :
  fst (reasoning_visibility.demonstrate_reasoning_visibility
         (sdk:={| responses_create := fun _ _ =>
                    Return (Response "r" "m" None [Item VNone ∅]);
                  item_repr := fun _ => "<item>" |})
         sample_environ (World [] []))
  = Return Finished
  /\ fst (agent_template_main
            (sdk:={| responses_create := fun _ _ =>
                       Return (Response "r" "m" None [Item VNone ∅]);
                     item_repr := fun _ => "<item>" |})
            (config_of_environ sample_environ) (World [] []))
     = Return (Exited 1).
Proof. split; vm_compute; reflexivity. Qed.
